(** * SampleList.mjs: the sample list of the results viewer

    A shallow embedding of
    [src/inspect_ai/_view/www/src/samples/SampleList.mjs] and the
    properties of its layout arithmetic, its row mapping, its keyboard
    handler and its banners.

    Conventions of the embedding.
    - A JavaScript number that the file only compares, clamps or prints is
      a rational [Q] when it is finite and [NaN] otherwise; [Math.max],
      [Math.min] and [>] are exact on doubles, so nothing is rounded.
    - Counters and array positions are [nat]; the numeric props
      ([selectedIndex], [item.number], [item.index]) are [Z].
    - Code of other modules (the formatters of [utils/Format.mjs], the
      markup produced by score descriptors) is taken as a variable of the
      section that uses it.
    - Hooks are modelled by what they compute: [useMemo] by its value,
      [useRef] and callbacks by a state monad over the cell or the log.
    - Style entries that only decorate (fonts, borders, paddings of the
      rows) are not part of the returned trees; the grid tracks and the
      row heights are. *)

From Stdlib Require Import List String Ascii Bool Arith ZArith.
From Stdlib Require Import QArith Qminmax Lia Lqa.
From Stdlib Require Import Sorted Permutation DecimalZ DecimalPos.
From Stdlib Require Import DecimalString.
From ExtLib Require Import Structures.Monad Structures.MonadState.
From ExtLib Require Import Data.Monads.StateMonad.
Import ListNotations.
Import MonadNotation.
Local Close Scope Q_scope.
Local Open Scope monad_scope.
Local Open Scope string_scope.

(** ** JavaScript numbers and values *)

Module JS.

Inductive number : Type :=
| Fin (q : Q)
| NaN.

Inductive value : Type :=
| Undefined
| Null
| Num (n : number).

Definition ofQ (q : Q) : value := Num (Fin q).
Definition ofZ (z : Z) : value := Num (Fin (inject_Z z)).
Definition ofNat (n : nat) : value := ofZ (Z.of_nat n).

(** ToNumber on the values that occur here. *)
Definition ToNumber (v : value) : number :=
  match v with
  | Undefined => NaN
  | Null => Fin 0
  | Num n => n
  end.

Definition Qlt_bool (a b : Q) : bool := negb (Qle_bool b a).

(** [a > b]: false as soon as one side converts to NaN. *)
Definition gt (a b : value) : bool :=
  match ToNumber a, ToNumber b with
  | Fin x, Fin y => Qlt_bool y x
  | _, _ => false
  end.

(** [Math.max(a, b)] and [Math.min(a, b)]: NaN is contagious. *)
Definition Math_max (a b : value) : number :=
  match ToNumber a, ToNumber b with
  | Fin x, Fin y => Fin (if Qle_bool x y then y else x)
  | _, _ => NaN
  end.

Definition Math_min (a b : value) : number :=
  match ToNumber a, ToNumber b with
  | Fin x, Fin y => Fin (if Qle_bool x y then x else y)
  | _, _ => NaN
  end.

(** [a === 0] on numbers. *)
Definition is_zero (n : number) : bool :=
  match n with
  | Fin q => Qeq_bool q 0
  | NaN => false
  end.

(** Truthiness of an optional string: [undefined] and [""] are falsy. *)
Definition truthy (s : option string) : bool :=
  match s with
  | Some EmptyString => false
  | Some _ => true
  | None => false
  end.

(** [`${n}`] for an integer: its decimal digits. The template literal
    prints a number this way up to a magnitude of 10^21 and in exponent
    form from there on; the numbers printed here are counters and the
    ordinals of list entries, which stay far below. *)
Definition showZ (z : Z) : string := NilZero.string_of_int (Z.to_int z).
Definition showNat (n : nat) : string := NilZero.string_of_uint (Nat.to_uint n).

End JS.

(** ** Column shapes and grid columns *)

(** [sampleDescriptor.messageShape]: normalized proportions of the text
    columns and raw size hints of the id and score columns. The fields are
    finite numbers. *)
Module MessageShape.
Record Normalized : Type :=
  { input : Q; target : Q; answer : Q; limit : Q }.
Record Raw : Type :=
  { id : Q; score : Q }.
Record t : Type :=
  { normalized : Normalized; raw : Raw }.
End MessageShape.

(** A CSS track size as [gridColumns] prints it. The template [`${val}fr`]
    always ends in "fr" and [`${id}rem`] in "rem", so the three shapes are
    three different strings and ["0"] is only produced by [Zero]. *)
Module Css.
Inductive width : Type :=
| Zero                      (* "0" *)
| Fr (val : JS.number)      (* `${val}fr` *)
| Rem (val : JS.number).    (* `${val}rem` *)

(** [w !== "0"] *)
Definition not_zero (w : width) : bool :=
  match w with
  | Zero => false
  | _ => true
  end.
End Css.

(** The object [gridColumns] returns. *)
Module Columns.
Record t : Type :=
  { input : Css.width; target : Css.width; answer : Css.width;
    limit : Css.width; id : Css.width; score : Css.width }.
End Columns.

(** The object [gridColumnStyles] returns; [gridTemplateColumns] is the
    space separated track list. *)
Module GridStyle.
Record t : Type :=
  { gridGap : string;
    gridTemplateColumns : list Css.width;
    paddingLeft : string;
    paddingRight : string }.
End GridStyle.

Definition kSampleHeight : Z := 88.
Definition kSeparatorHeight : Z := 24.
Definition kMinFr : Q := 0.15%Q.

Set Implicit Arguments.

Section SampleList.

(** Types and functions of other modules. *)
Variables Input Target Markup Double : Type.
Variable inputString : Input -> list string.
Variable arrayToString : Target -> string.
(** [(count / sampleCount) * 100] in double arithmetic. *)
Variable percent : nat -> nat -> Double.
Variable formatNoDecimal : Double -> string.

Inductive SampleId : Type :=
| IdNumber (n : Z)
| IdString (s : string).

Record SampleSummary : Type :=
  { id : SampleId;
    input : Input;
    target : Target;
    error : option string;
    limit : option string }.

Record SelectedScore : Type := { render : Markup }.
Record ScorerDescriptor : Type := { answer : string }.

Record SamplesDescriptor : Type :=
  { messageShape : MessageShape.t;
    selectedScore : SampleSummary -> SelectedScore;
    selectedScorerDescriptor : SampleSummary -> ScorerDescriptor }.

(** The descriptor object a call receives: [None] is [undefined]. The
    functions that take it run in a state monad over that object, so
    that what they do to it is part of what is proved. *)
Definition Descr : Type := option SamplesDescriptor.

(** [sampleDescriptor?.messageShape.normalized.<f>] *)
Definition readNormalized (f : MessageShape.Normalized -> Q)
  : state Descr JS.value :=
  d <- get ;;
  ret match d with
      | Some d => JS.ofQ (f (MessageShape.normalized (messageShape d)))
      | None => JS.Undefined
      end.

(** [sampleDescriptor?.messageShape.raw.<f>] *)
Definition readRaw (f : MessageShape.Raw -> Q) : state Descr JS.value :=
  d <- get ;;
  ret match d with
      | Some d => JS.ofQ (f (MessageShape.raw (messageShape d)))
      | None => JS.Undefined
      end.

(** [n.<f> > 0 ? Math.max(0.15, n.<f>) : 0]. The second read is the
    unguarded [sampleDescriptor.messageShape...]; it is only reached
    when the first one gave a positive number. *)
Definition proportion (f : MessageShape.Normalized -> Q)
  : state Descr JS.number :=
  v <- readNormalized f ;;
  if JS.gt v (JS.ofQ 0)
  then v' <- readNormalized f ;; ret (JS.Math_max (JS.ofQ kMinFr) v')
  else ret (JS.Fin 0).

Definition frSize (val : JS.number) : Css.width :=
  if JS.is_zero val then Css.Zero else Css.Fr val.

Definition gridColumns : state Descr Columns.t :=
  input <- proportion MessageShape.input ;;
  target <- proportion MessageShape.target ;;
  answer <- proportion MessageShape.answer ;;
  limit <- proportion MessageShape.limit ;;
  rid <- readRaw MessageShape.id ;;
  let id := JS.Math_max (JS.ofQ 2) (JS.Num (JS.Math_min (JS.ofQ 10) rid)) in
  rscore <- readRaw MessageShape.score ;;
  let score :=
    JS.Math_max (JS.ofQ 3) (JS.Num (JS.Math_min (JS.ofQ 10) rscore)) in
  ret {| Columns.input := frSize input;
         Columns.target := frSize target;
         Columns.answer := frSize answer;
         Columns.limit := frSize limit;
         Columns.id := Css.Rem id;
         Columns.score := Css.Rem score |}.

Definition gridColumnStyles : state Descr GridStyle.t :=
  c <- gridColumns ;;
  ret {| GridStyle.gridGap := "10px";
         GridStyle.gridTemplateColumns :=
           [ Columns.id c; Columns.input c; Columns.target c;
             Columns.answer c; Columns.limit c; Columns.score c ];
         GridStyle.paddingLeft := "1rem";
         GridStyle.paddingRight := "1rem" |}.

(** The value of a call, for the callers that only use the result. *)
Definition columnsOf (d : Descr) : Columns.t := evalState gridColumns d.
Definition gridStyleOf (d : Descr) : GridStyle.t :=
  evalState gridColumnStyles d.

(** ** List items *)

(** [item.data] is a sample summary or, for a separator, its title. *)
Inductive ItemData : Type :=
| DataSample (s : SampleSummary)
| DataTitle (s : string).

Record ListItem : Type :=
  { number : Z;
    index : Z;
    data : ItemData;
    type : string }.

(** [item.data.error] and [item.data.limit]: a string has no such
    property, the read gives [undefined]. *)
Definition data_error (d : ItemData) : option string :=
  match d with
  | DataSample s => error s
  | DataTitle _ => None
  end.

Definition data_limit (d : ItemData) : option string :=
  match d with
  | DataSample s => limit s
  | DataTitle _ => None
  end.

(** ** The row mapping and the scroll effect *)

(** [items.forEach((item, index) => ...)] pushing on [rowIndexes]. *)
Fixpoint forEachRow (items : list ListItem) (index : nat)
         (rowIndexes : list nat) : list nat :=
  match items with
  | [] => rowIndexes
  | item :: rest =>
      forEachRow rest (S index)
        (if type item =? "sample" then rowIndexes ++ [index]
         else rowIndexes)
  end.

Definition itemRowMapping (items : list ListItem) : list nat :=
  forEachRow items 0 [].

(** [a[i]] on an array of row positions: [undefined] out of range. *)
Definition at_index (a : list nat) (i : Z) : JS.value :=
  if (i <? 0)%Z then JS.Undefined
  else match nth_error a (Z.to_nat i) with
       | Some r => JS.ofNat r
       | None => JS.Undefined
       end.

(** One call [listRef.current.scrollToIndex(row, direction)]. *)
Record ScrollCall : Type :=
  { row : JS.value; direction : string }.

(** The two refs the effect touches, and the calls the list element has
    received. [listEl] tells whether [listRef.current] is set. *)
Record Refs : Type :=
  { listEl : bool;
    prevSelectedIndexRef : JS.value;
    scrolled : list ScrollCall }.

Definition initialRefs (mounted : bool) : Refs :=
  {| listEl := mounted; prevSelectedIndexRef := JS.Null; scrolled := [] |}.

(** The body of the second [useEffect]. *)
Definition scrollEffect (items : list ListItem) (selectedIndex : Z)
  : state Refs unit :=
  r <- get ;;
  if listEl r then
    let actualRowIndex := at_index (itemRowMapping items) selectedIndex in
    let direction :=
      if JS.gt actualRowIndex (prevSelectedIndexRef r)
      then "down" else "up" in
    put {| listEl := listEl r;
           prevSelectedIndexRef := actualRowIndex;
           scrolled := scrolled r ++
                       [{| row := actualRowIndex;
                           direction := direction |}] |}
  else ret tt.

(** The dependency array [[selectedIndex, listRef, itemRowMapping]].
    Objects are compared by identity: [depListRef] and [depMapping] are
    identity tokens (the memoized mapping is a new array exactly when
    [items] is a new array). *)
Record EffectDeps : Type :=
  { depSelectedIndex : Z; depListRef : nat; depMapping : nat }.

Definition sameDeps (a b : EffectDeps) : bool :=
  (depSelectedIndex a =? depSelectedIndex b)%Z
  && (depListRef a =? depListRef b)%nat
  && (depMapping a =? depMapping b)%nat.

(** What a render of [SampleList] schedules: nothing for an empty list
    (the function returns before its hooks), the effect after the first
    render and after each one that changes a dependency. *)
Definition afterRender (previous : option EffectDeps) (deps : EffectDeps)
           (items : list ListItem) : state Refs unit :=
  if (List.length items =? 0)%nat then ret tt
  else match previous with
       | None => scrollEffect items (depSelectedIndex deps)
       | Some p =>
           if sameDeps p deps then ret tt
           else scrollEffect items (depSelectedIndex deps)
       end.

(** ** Rows *)

(** What [renderRow] returns: a [SampleRow] element, a [SeparatorRow]
    element, or the empty string. The callback props ([setSelected],
    [selectedScore], [showSample]) are passed through as received and
    are left out. *)
Inductive RowElement : Type :=
| SampleRowElement (id : Z) (index : Z) (sample : ItemData) (height : Z)
                   (sampleDescriptor : Descr) (selected : bool)
| SeparatorRowElement (id : string) (title : ItemData) (height : Z)
| EmptyString.

Definition renderRow (sampleDescriptor : Descr) (selectedIndex : Z)
           (item : ListItem) : RowElement :=
  if type item =? "sample" then
    SampleRowElement (number item) (index item) (data item) kSampleHeight
                     sampleDescriptor (selectedIndex =? index item)%Z
  else if type item =? "separator" then
    SeparatorRowElement ("sample-group" ++ JS.showZ (number item))
                        (data item) kSeparatorHeight
  else EmptyString.

(** What the [SeparatorRow] component renders: the [div] with its id,
    its height and the title as only content. *)
Record SeparatorRowView : Type :=
  { separator_id : string;
    separator_height : string;
    separator_title : ItemData }.

Definition SeparatorRow (id : string) (title : ItemData) (height : Z)
  : SeparatorRowView :=
  {| separator_id := id;
     separator_height := JS.showZ height ++ "px";
     separator_title := title |}.

(** Callbacks received as props and the two event methods: invoking one
    is recorded in a log. *)
Inductive Action : Type :=
| CallPrevSample
| CallNextSample
| CallShowSample (index : Z)
| PreventDefault
| StopPropagation.

Definition perform (a : Action) : state (list Action) unit :=
  modify (fun log => (log ++ [a])%list) ;; ret tt.

(** The content of the score cell. *)
Inductive ScoreCell : Type :=
| SampleError (message : string)
| RenderedScore (score : option Markup).

(** What [SampleRow] renders; one field per cell, named after the
    cell's class. [MarkdownDiv] cells hold their markdown source. *)
Record SampleRowView : Type :=
  { row_id : string;
    row_onclick : state (list Action) unit;
    row_height : string;
    row_grid : GridStyle.t;
    row_gridTemplateRows : string;
    row_selected : bool;
    sample_id : SampleId;
    sample_input : string;
    sample_target : string;
    sample_answer : option string;
    sample_limit : option string;
    sample_score : ScoreCell }.

(** [parts.join(" ")] *)
Definition join (parts : list string) : string := String.concat " " parts.

(** [sample.id], for the scopes where [id] names the row's own prop. *)
Definition summaryId (sample : SampleSummary) : SampleId := id sample.

Definition SampleRow (id : Z) (index : Z) (sample : SampleSummary)
           (sampleDescriptor : Descr) (height : Z) (selected : bool)
  : SampleRowView :=
  {| row_id := "sample-" ++ JS.showZ id;
     row_onclick := perform (CallShowSample index);
     row_height := JS.showZ height ++ "px";
     row_grid := gridStyleOf sampleDescriptor;
     row_gridTemplateRows := JS.showZ (height - 28) ++ "px";
     row_selected := selected;
     sample_id := summaryId sample;
     sample_input := join (inputString (input sample));
     sample_target := arrayToString (target sample);
     sample_answer :=
       match sampleDescriptor with
       | Some d => Some (answer (selectedScorerDescriptor d sample))
       | None => None
       end;
     sample_limit := limit sample;
     sample_score :=
       if JS.truthy (error sample)
       then SampleError (match error sample with
                         | Some message => message
                         | None => ""
                         end)
       else RenderedScore
              match sampleDescriptor with
              | Some d => Some (render (selectedScore d sample))
              | None => None
              end |}.

(** ** Keyboard *)

(** [onkeydown(e)] on [e.key]; the result is [false] for a handled key
    and [undefined] ([None]) when the switch falls through. *)
Definition onkeydown (selectedIndex : Z) (key : string)
  : state (list Action) (option bool) :=
  if key =? "ArrowUp" then
    perform CallPrevSample ;;
    perform PreventDefault ;;
    perform StopPropagation ;;
    ret (Some false)
  else if key =? "ArrowDown" then
    perform CallNextSample ;;
    perform PreventDefault ;;
    perform StopPropagation ;;
    ret (Some false)
  else if key =? "Enter" then
    perform (CallShowSample selectedIndex) ;;
    perform PreventDefault ;;
    perform StopPropagation ;;
    ret (Some false)
  else ret None.

(** ** The component *)

(** [items.reduce(...)]: the three counters. *)
Definition sampleCount (items : list ListItem) : nat :=
  fold_left (fun prev current =>
               if type current =? "sample" then prev + 1 else prev)
            items 0%nat.

Definition errorCount (items : list ListItem) : nat :=
  fold_left (fun previous item =>
               if JS.truthy (data_error (data item)) then previous + 1
               else previous)
            items 0%nat.

Definition limitCount (items : list ListItem) : nat :=
  fold_left (fun previous item =>
               if JS.truthy (data_limit (data item)) then previous + 1
               else previous)
            items 0%nat.

Definition percentError (items : list ListItem) : Double :=
  percent (errorCount items) (sampleCount items).

Definition percentLimit (items : list ListItem) : Double :=
  percent (limitCount items) (sampleCount items).

Definition errorMessage (items : list ListItem) : string :=
  "INFO: " ++ JS.showNat (errorCount items) ++ " of "
    ++ JS.showNat (sampleCount items) ++ " samples ("
    ++ formatNoDecimal (percentError items)
    ++ "%) had errors and were not scored.".

Definition limitMessage (items : list ListItem) : string :=
  "INFO: " ++ JS.showNat (limitCount items) ++ " of "
    ++ JS.showNat (sampleCount items) ++ " samples ("
    ++ formatNoDecimal (percentLimit items)
    ++ "%) completed due to exceeding a limit.".

(** [errorCount > 0 ? ... : limitCount ? ... : undefined] *)
Definition warningMessage (items : list ListItem) : option string :=
  if (0 <? errorCount items)%nat then Some (errorMessage items)
  else if negb (limitCount items =? 0)%nat then Some (limitMessage items)
  else None.

(** The elements [SampleList] puts inside its outer [div]. *)
Inductive VNode : Type :=
| Text (s : string)
| MessageBand (message : string) (hidden : bool) (type : string)
| HeaderRow (grid : GridStyle.t) (labels : list string)
| VirtualList (data : list ListItem) (tabIndex : string)
              (renderRow : ListItem -> RowElement)
              (onkeydown : string -> state (list Action) (option bool))
| FooterRow (text : string).

(** What [SampleList] returns: the empty panel with its text, or the
    outer [div] with its children in document order. *)
Inductive View : Type :=
| EmptyPanel (children : string)
| Container (children : list VNode).

(** [warningMessage ? html`<MessageBand .../>` : ""] *)
Definition warningRow (items : list ListItem) (hidden : bool) : VNode :=
  if JS.truthy (warningMessage items)
  then MessageBand (match warningMessage items with
                    | Some message => message
                    | None => ""
                    end) hidden "info"
  else Text "".

Definition headerLabel (w : Css.width) (label : string) : string :=
  if Css.not_zero w then label else "".

Definition headerRow (sampleDescriptor : Descr) : VNode :=
  let c := columnsOf sampleDescriptor in
  HeaderRow (gridStyleOf sampleDescriptor)
            [ "Id";
              headerLabel (Columns.input c) "Input";
              headerLabel (Columns.target c) "Target";
              headerLabel (Columns.answer c) "Answer";
              headerLabel (Columns.limit c) "Limit";
              "Score" ].

Definition footerRow (items : list ListItem) : VNode :=
  FooterRow (JS.showNat (sampleCount items) ++ " Samples").

(** The props the model keeps, and the [hidden] state of [useState]. *)
Record Props : Type :=
  { items : list ListItem;
    sampleDescriptor : Descr;
    selectedIndex : Z }.

Definition SampleList (props : Props) (hidden : bool) : View :=
  if (List.length (items props) =? 0)%nat then EmptyPanel "No Samples"
  else
    Container
      [ warningRow (items props) hidden;
        headerRow (sampleDescriptor props);
        VirtualList (items props) "0"
                    (renderRow (sampleDescriptor props)
                               (selectedIndex props))
                    (onkeydown (selectedIndex props));
        footerRow (items props) ].

(** ** Reading a rendered tree *)

Definition isBanner (v : VNode) : bool :=
  match v with MessageBand _ _ _ => true | _ => false end.
Definition isHeader (v : VNode) : bool :=
  match v with HeaderRow _ _ => true | _ => false end.
Definition isVirtualList (v : VNode) : bool :=
  match v with VirtualList _ _ _ _ => true | _ => false end.
Definition isFooter (v : VNode) : bool :=
  match v with FooterRow _ => true | _ => false end.

(** The elements of a returned tree. *)
Definition childrenOf (v : View) : list VNode :=
  match v with
  | Container children => children
  | EmptyPanel _ => []
  end.

Definition count (p : VNode -> bool) (v : View) : nat :=
  List.length (filter p (childrenOf v)).

(** The array handed to the virtual list and the row elements it gets
    from [renderRow], in the order of that array. *)
Definition dataOf (v : View) : list ListItem :=
  flat_map (fun child => match child with
                         | VirtualList data _ _ _ => data
                         | _ => []
                         end) (childrenOf v).

Definition rowsOf (v : View) : list RowElement :=
  flat_map (fun child => match child with
                         | VirtualList data _ renderRow _ =>
                             map renderRow data
                         | _ => []
                         end) (childrenOf v).

(** ** The claims' own notions *)

(** The position in [items] of the [k]-th entry of type "sample",
    counting from 0 and stepping over the other entries; [None] when
    there are not that many samples. *)
Fixpoint samplePosition (items : list ListItem) (k : nat) : option nat :=
  match items with
  | [] => None
  | item :: rest =>
      if type item =? "sample" then
        match k with
        | O => Some O
        | S k' => option_map S (samplePosition rest k')
        end
      else option_map S (samplePosition rest k)
  end.

(** The value of [prevSelectedIndexRef] given the row scrolled to last:
    [null] until the first scroll. *)
Definition lastRow (before : option nat) : JS.value :=
  match before with
  | Some r => JS.ofNat r
  | None => JS.Null
  end.

(** The direction towards row [pos] from the row scrolled to last; a
    first scroll compares with 0, as [pos > null] does. *)
Definition directionFrom (before : option nat) (pos : nat) : string :=
  if (match before with Some r => r | None => O end <? pos)%nat
  then "down" else "up".

(** C1 at one input: running the effect adds one call, whose row is
    the position of the selected sample. *)
Definition scrollsSelectedIntoView (items : list ListItem)
           (selectedIndex : Z) (r : Refs) : Prop :=
  exists (pos : nat) (dir : string),
    scrolled (execState (scrollEffect items selectedIndex) r)
    = (scrolled r ++ [{| row := JS.ofNat pos; direction := dir |}])%list.

(** The number of entries of type "sample". *)
Definition samplesIn (items : list ListItem) : nat :=
  List.length (filter (fun item => type item =? "sample") items).

Definition errorsIn (items : list ListItem) : nat :=
  List.length
    (filter (fun item => JS.truthy (data_error (data item))) items).

Definition limitsIn (items : list ListItem) : nat :=
  List.length
    (filter (fun item => JS.truthy (data_limit (data item))) items).

(** ** Runs of the effect and of the handlers *)

(** The scroll effect run after each render of a series; a render is
    given by its items and its selected index. *)
Fixpoint scrollEffects (renders : list (list ListItem * Z))
  : state Refs unit :=
  match renders with
  | [] => ret tt
  | (items, selectedIndex) :: rest =>
      scrollEffect items selectedIndex ;; scrollEffects rest
  end.

(** The row of the last call of a log, [start] when the log is empty. *)
Definition lastRowOf (start : JS.value) (calls : list ScrollCall)
  : JS.value :=
  fold_left (fun _ call => row call) calls start.

(** Each call of a log has the direction that comparing its row with
    the row of the call before it gives; the first one is compared with
    [start]. *)
Fixpoint consistentFrom (start : JS.value) (calls : list ScrollCall)
  : Prop :=
  match calls with
  | [] => True
  | call :: rest =>
      direction call
      = (if JS.gt (row call) start then "down" else "up")
      /\ consistentFrom (row call) rest
  end.

(** What a series of effects keeps true of the refs. *)
Definition refsAgree (r : Refs) : Prop :=
  consistentFrom JS.Null (scrolled r)
  /\ prevSelectedIndexRef r = lastRowOf JS.Null (scrolled r).

(** The key handler run on each key of a series. *)
Fixpoint keydowns (selectedIndex : Z) (keys : list string)
  : state (list Action) unit :=
  match keys with
  | [] => ret tt
  | key :: rest => onkeydown selectedIndex key ;; keydowns selectedIndex rest
  end.

Definition isCallback (a : Action) : bool :=
  match a with
  | CallPrevSample | CallNextSample | CallShowSample _ => true
  | PreventDefault | StopPropagation => false
  end.

Definition isPreventDefault (a : Action) : bool :=
  match a with PreventDefault => true | _ => false end.

Definition isStopPropagation (a : Action) : bool :=
  match a with StopPropagation => true | _ => false end.

Definition handled (key : string) : bool :=
  (key =? "ArrowUp") || (key =? "ArrowDown") || (key =? "Enter").

(** The samples of [items] carry the indexes [k], [k + 1], ... in the
    order of the list. *)
Fixpoint indexedFrom (k : nat) (items : list ListItem) : bool :=
  match items with
  | [] => true
  | item :: rest =>
      if type item =? "sample"
      then (index item =? Z.of_nat k)%Z && indexedFrom (S k) rest
      else indexedFrom k rest
  end.

(** A row element that is a sample row drawn as selected. *)
Definition isSelectedRow (e : RowElement) : bool :=
  match e with
  | SampleRowElement _ _ _ _ _ selected => selected
  | _ => false
  end.


(** The component a row element stands for, rendered: [SampleRow] on the
    props of a sample row whose data is a summary. *)
Definition mountSampleRow (e : RowElement) : option SampleRowView :=
  match e with
  | SampleRowElement id index (DataSample sample) height d selected =>
      Some (SampleRow id index sample d height selected)
  | _ => None
  end.

(** The [id] attribute of the [div] a row element renders to. *)
Definition domId (e : RowElement) : option string :=
  match e with
  | SampleRowElement id index (DataSample sample) height d selected =>
      Some (row_id (SampleRow id index sample d height selected))
  | SeparatorRowElement id title height =>
      Some (separator_id (SeparatorRow id title height))
  | _ => None
  end.

(** Every item that carries a summary is of type "sample": separators
    carry their title. *)
Definition summariesAreSamples (items : list ListItem) : bool :=
  forallb (fun item => match data item with
                       | DataSample _ => type item =? "sample"
                       | DataTitle _ => true
                       end) items.

End SampleList.

Unset Implicit Arguments.

Arguments readNormalized {Input Target Markup} f.
Arguments readRaw {Input Target Markup} f.
Arguments proportion {Input Target Markup} f.
Arguments gridColumns {Input Target Markup}.
Arguments gridColumnStyles {Input Target Markup}.
Arguments DataTitle {Input Target} s.
Arguments EmptyString {Input Target Markup}.
Arguments SampleError {Markup} message.
Arguments EmptyPanel {Input Target Markup} children.
Arguments Text {Input Target Markup} s.
Arguments MessageBand {Input Target Markup} message hidden type.
Arguments HeaderRow {Input Target Markup} grid labels.
Arguments FooterRow {Input Target Markup} text.
Arguments SeparatorRowElement {Input Target Markup} id title height.
Arguments warningRow {Input Target Markup Double} percent formatNoDecimal
  items hidden.
Arguments footerRow {Input Target Markup} items.

(** ** Reading the layout *)

(** The four text columns. *)
Inductive TextColumn : Type :=
| InputColumn
| TargetColumn
| AnswerColumn
| LimitColumn.

(** The normalized value a shape supplies for a column. *)
Definition supplied (c : TextColumn) (n : MessageShape.Normalized) : Q :=
  match c with
  | InputColumn => MessageShape.input n
  | TargetColumn => MessageShape.target n
  | AnswerColumn => MessageShape.answer n
  | LimitColumn => MessageShape.limit n
  end.

(** The track [gridColumns] computed for a column. *)
Definition widthOf (c : TextColumn) (cols : Columns.t) : Css.width :=
  match c with
  | InputColumn => Columns.input cols
  | TargetColumn => Columns.target cols
  | AnswerColumn => Columns.answer cols
  | LimitColumn => Columns.limit cols
  end.

(** The number of [fr] units of a track, when it is one. *)
Definition frValue (w : Css.width) : option Q :=
  match w with
  | Css.Fr (JS.Fin q) => Some q
  | _ => None
  end.

(** Two tracks are in the ratio of the two values [va] and [vb]. *)
Definition proportional (va vb : Q) (wa wb : Css.width) : Prop :=
  exists qa qb : Q,
    frValue wa = Some qa /\ frValue wb = Some qb /\ (qa / qb == va / vb)%Q.

(** A track is a finite number of [rem] between [lo] and [hi]. *)
Definition clamped (lo hi : Q) (w : Css.width) : Prop :=
  exists q : Q, w = Css.Rem (JS.Fin q) /\ (lo <= q)%Q /\ (q <= hi)%Q.

(** A track is a finite number of [fr] that is at least [lo]. *)
Definition atLeastFr (lo : Q) (w : Css.width) : Prop :=
  exists q : Q, w = Css.Fr (JS.Fin q) /\ (lo <= q)%Q.

(** How a normalized value [v] feeds its column, and a raw hint [v] the
    id ([lo] = 2) or score ([lo] = 3) column. *)
Definition feedsFr (v : Q) : Css.width :=
  if JS.Qlt_bool 0%Q v
  then Css.Fr (JS.Fin (if Qle_bool kMinFr v then v else kMinFr))
  else Css.Zero.

Definition feedsRem (lo : Q) (v : Q) : Css.width :=
  Css.Rem (JS.Math_max (JS.ofQ lo)
             (JS.Num (JS.Math_min (JS.ofQ 10) (JS.ofQ v)))).

(** The size of a track as a number of [fr], "0" counting as none. *)
Definition frNumber (w : Css.width) : Q :=
  match w with
  | Css.Fr (JS.Fin q) => q
  | _ => 0%Q
  end.

(** The header text of a text column, and the labels of a header row. *)
Definition columnLabel (c : TextColumn) : string :=
  match c with
  | InputColumn => "Input"
  | TargetColumn => "Target"
  | AnswerColumn => "Answer"
  | LimitColumn => "Limit"
  end.

Definition labelsOf {Input Target Markup : Type}
           (v : VNode Input Target Markup) : list string :=
  match v with
  | HeaderRow _ labels => labels
  | _ => []
  end.

(** The label shown above a text column: the entry of the header row at
    the column's place, after "Id". *)
Definition shownLabel {Input Target Markup : Type}
           (c : TextColumn) (header : VNode Input Target Markup) : string :=
  nth (match c with
       | InputColumn => 1
       | TargetColumn => 2
       | AnswerColumn => 3
       | LimitColumn => 4
       end) (labelsOf header) "?".

(** ** Sample data *)

Module Examples.

(** A descriptor with the given shape; the collaborators' types are
    instantiated by [unit]. *)
Definition descriptor (shape : MessageShape.t)
  : SamplesDescriptor unit unit unit :=
  {| messageShape := shape;
     selectedScore := fun _ => {| render := tt |};
     selectedScorerDescriptor := fun _ => {| answer := "" |} |}.

(** A narrow input column next to a wide target column. *)
Definition narrowInput : MessageShape.t :=
  {| MessageShape.normalized :=
       {| MessageShape.input := 0.05%Q; MessageShape.target := 0.5%Q;
          MessageShape.answer := 0.25%Q; MessageShape.limit := 0%Q |};
     MessageShape.raw :=
       {| MessageShape.id := 4%Q; MessageShape.score := 12%Q |} |}.

(** Columns that are all wider than the minimum. *)
Definition wide : MessageShape.t :=
  {| MessageShape.normalized :=
       {| MessageShape.input := 0.4%Q; MessageShape.target := 0.2%Q;
          MessageShape.answer := 0.3%Q; MessageShape.limit := 0%Q |};
     MessageShape.raw :=
       {| MessageShape.id := 1%Q; MessageShape.score := 5%Q |} |}.

Definition absent : Descr unit unit unit := None.

Definition summary (error limit : option string) : SampleSummary unit unit :=
  {| id := IdNumber 1; input := tt; target := tt;
     error := error; limit := limit |}.

Definition sample (n : Z) (error limit : option string)
  : ListItem unit unit :=
  {| number := n + 1; index := n; data := DataSample (summary error limit);
     type := "sample" |}.

Definition separator (n : Z) (title : string) : ListItem unit unit :=
  {| number := n; index := 0; data := DataTitle title;
     type := "separator" |}.

(** Two groups: a heading, two samples, a heading, one sample. *)
Definition grouped : list (ListItem unit unit) :=
  [ separator 1 "Group 1"; sample 0 None None; sample 1 None None;
    separator 2 "Group 2"; sample 2 None None ].


(** A list with one failed sample and one that ran into a limit. *)
Definition troubled : list (ListItem unit unit) :=
  [ separator 1 "Group 1"; sample 0 (Some "boom") None;
    sample 1 None (Some "time"); sample 2 None None ].

End Examples.

Section Properties.

Variables Input Target Markup Double : Type.
Variable inputString : Input -> list string.
Variable arrayToString : Target -> string.
Variable percent : nat -> nat -> Double.
Variable formatNoDecimal : Double -> string.

(** *** Running the layout functions *)

Lemma readNormalized_run (d : Descr Input Target Markup) f :
  runState (readNormalized f) d =
  (match d with
   | Some d => JS.ofQ (f (MessageShape.normalized (messageShape d)))
   | None => JS.Undefined
   end, d).
Proof. reflexivity. Qed.

Lemma proportion_state (d : Descr Input Target Markup) f :
  execState (proportion f) d = d.
Proof.
  unfold execState, proportion, readNormalized; cbn.
  destruct d as [d|]; cbn; [|reflexivity].
  destruct (JS.Qlt_bool _ _); reflexivity.
Qed.

Lemma proportion_absent f :
  evalState (proportion f) (@None (SamplesDescriptor Input Target Markup))
  = JS.Fin 0%Q.
Proof. reflexivity. Qed.

Lemma proportion_present (d : SamplesDescriptor Input Target Markup) f :
  evalState (proportion f) (Some d) =
  let v := f (MessageShape.normalized (messageShape d)) in
  if JS.Qlt_bool 0%Q v
  then JS.Fin (if Qle_bool kMinFr v then v else kMinFr)
  else JS.Fin 0%Q.
Proof.
  unfold evalState, proportion, readNormalized; cbn.
  destruct (JS.Qlt_bool _ _); reflexivity.
Qed.

Lemma gridColumns_run (d : Descr Input Target Markup) :
  runState gridColumns d =
  ({| Columns.input := frSize (evalState (proportion MessageShape.input) d);
      Columns.target := frSize (evalState (proportion MessageShape.target) d);
      Columns.answer := frSize (evalState (proportion MessageShape.answer) d);
      Columns.limit := frSize (evalState (proportion MessageShape.limit) d);
      Columns.id :=
        Css.Rem (JS.Math_max (JS.ofQ 2)
                   (JS.Num (JS.Math_min (JS.ofQ 10)
                              (evalState (readRaw MessageShape.id) d))));
      Columns.score :=
        Css.Rem (JS.Math_max (JS.ofQ 3)
                   (JS.Num (JS.Math_min (JS.ofQ 10)
                              (evalState (readRaw MessageShape.score) d))))
   |}, d).
Proof.
  destruct d as [d|]; [|reflexivity].
  unfold gridColumns, evalState, proportion, readNormalized, readRaw; cbn.
  repeat (destruct (JS.Qlt_bool _ _); cbn); reflexivity.
Qed.

(** *** Comparisons on rationals *)

Lemma Qlt_bool_true (a b : Q) : JS.Qlt_bool a b = true <-> (a < b)%Q.
Proof.
  unfold JS.Qlt_bool. rewrite negb_true_iff.
  split; intros H.
  - apply Qnot_le_lt. intros Hle. apply Qle_bool_iff in Hle. congruence.
  - destruct (Qle_bool b a) eqn:E; [|reflexivity].
    apply Qle_bool_iff in E. lra.
Qed.

Lemma Qlt_bool_false (a b : Q) : JS.Qlt_bool a b = false <-> (b <= a)%Q.
Proof.
  unfold JS.Qlt_bool. rewrite negb_false_iff. apply Qle_bool_iff.
Qed.

Lemma is_zero_positive (q : Q) : (0 < q)%Q -> JS.is_zero (JS.Fin q) = false.
Proof.
  intros H. cbn. destruct (Qeq_bool q 0) eqn:E; [|reflexivity].
  apply Qeq_bool_iff in E. lra.
Qed.

Lemma kMinFr_positive : (0 < kMinFr)%Q.
Proof. unfold kMinFr. lra. Qed.

(** The track of a text column is [feedsFr] of its normalized value. *)
Lemma frSize_proportion (d : SamplesDescriptor Input Target Markup) f :
  frSize (evalState (proportion f) (Some d))
  = feedsFr (f (MessageShape.normalized (messageShape d))).
Proof.
  rewrite proportion_present. unfold feedsFr. cbv zeta.
  destruct (JS.Qlt_bool _ _) eqn:E; [|reflexivity].
  apply Qlt_bool_true in E. unfold frSize.
  rewrite is_zero_positive; [reflexivity|].
  pose proof kMinFr_positive.
  destruct (Qle_bool _ _) eqn:E'; [|assumption].
  apply Qle_bool_iff in E'. lra.
Qed.

Lemma widthOf_present (d : SamplesDescriptor Input Target Markup) c :
  widthOf c (columnsOf (Some d))
  = feedsFr (supplied c (MessageShape.normalized (messageShape d))).
Proof.
  unfold columnsOf, evalState. rewrite gridColumns_run.
  destruct c; cbn [fst widthOf supplied Columns.input Columns.target
                   Columns.answer Columns.limit];
    apply frSize_proportion.
Qed.

Lemma widthOf_absent c :
  widthOf c (columnsOf (@None (SamplesDescriptor Input Target Markup)))
  = Css.Zero.
Proof. destruct c; reflexivity. Qed.

Lemma feedsFr_cases (v : Q) :
  ((v <= 0)%Q /\ feedsFr v = Css.Zero)
  \/ ((0 < v)%Q /\ (v < kMinFr)%Q /\ feedsFr v = Css.Fr (JS.Fin kMinFr))
  \/ ((kMinFr <= v)%Q /\ feedsFr v = Css.Fr (JS.Fin v)).
Proof.
  unfold feedsFr. pose proof kMinFr_positive.
  destruct (JS.Qlt_bool 0 v) eqn:E.
  - apply Qlt_bool_true in E.
    destruct (Qle_bool kMinFr v) eqn:E'.
    + apply Qle_bool_iff in E'. right; right. auto.
    + right; left. repeat split; auto.
      apply Qnot_le_lt. intros Hle.
      apply Qle_bool_iff in Hle. congruence.
  - apply Qlt_bool_false in E. left. auto.
Qed.

Lemma feedsFr_positive (v : Q) :
  (0 < v)%Q ->
  exists q : Q, feedsFr v = Css.Fr (JS.Fin q) /\ (q == Qmax kMinFr v)%Q.
Proof.
  intros Hv.
  destruct (feedsFr_cases v) as [[H _]|[[_ [H ->]]|[H ->]]]; [lra | |].
  - exists kMinFr. split; [reflexivity|].
    symmetry. apply Q.max_l. lra.
  - exists v. split; [reflexivity|].
    symmetry. apply Q.max_r. exact H.
Qed.

(** C2, as the code has it: two text columns with positive normalized
    values get [fr] widths in the ratio of those values once each is
    raised to the minimum of 0.15, hence in the ratio of the values
    themselves when both are at least 0.15. *)
Theorem gridColumns_proportional_above_minimum
        (d : SamplesDescriptor Input Target Markup) (a b : TextColumn) :
  let n := MessageShape.normalized (messageShape d) in
  let wa := widthOf a (columnsOf (Some d)) in
  let wb := widthOf b (columnsOf (Some d)) in
  (0 < supplied a n)%Q ->
  (0 < supplied b n)%Q ->
  proportional (Qmax kMinFr (supplied a n)) (Qmax kMinFr (supplied b n))
               wa wb
  /\ ((kMinFr <= supplied a n)%Q -> (kMinFr <= supplied b n)%Q ->
      proportional (supplied a n) (supplied b n) wa wb).
Proof.
  intros n wa wb Ha Hb. subst wa wb. rewrite !widthOf_present. fold n.
  destruct (feedsFr_positive _ Ha) as [qa [-> Ea]].
  destruct (feedsFr_positive _ Hb) as [qb [-> Eb]].
  split.
  - exists qa, qb. cbn [frValue]. repeat split; try reflexivity.
    rewrite Ea, Eb. reflexivity.
  - intros Ha' Hb'. exists qa, qb. cbn [frValue].
    repeat split; try reflexivity.
    rewrite Ea, Eb, (Q.max_r _ _ Ha'), (Q.max_r _ _ Hb'). reflexivity.
Qed.

Lemma feedsRem_clamped (lo v : Q) :
  (lo <= 10)%Q -> clamped lo 10 (feedsRem lo v).
Proof.
  intros Hlo. unfold feedsRem, clamped; cbn.
  eexists; split; [reflexivity|].
  destruct (Qle_bool 10 v) eqn:E10.
  - destruct (Qle_bool lo 10) eqn:E; [lra|].
    split; [lra|exact Hlo].
  - assert (v < 10)%Q.
    { apply Qnot_le_lt. intros Hle. apply Qle_bool_iff in Hle. congruence. }
    destruct (Qle_bool lo v) eqn:E.
    + apply Qle_bool_iff in E. lra.
    + lra.
Qed.

Lemma gridColumns_present (d : SamplesDescriptor Input Target Markup) :
  let n := MessageShape.normalized (messageShape d) in
  let r := MessageShape.raw (messageShape d) in
  runState gridColumns (Some d) =
  ({| Columns.input := feedsFr (MessageShape.input n);
      Columns.target := feedsFr (MessageShape.target n);
      Columns.answer := feedsFr (MessageShape.answer n);
      Columns.limit := feedsFr (MessageShape.limit n);
      Columns.id := feedsRem 2 (MessageShape.id r);
      Columns.score := feedsRem 3 (MessageShape.score r) |}, Some d).
Proof.
  intros n r. rewrite gridColumns_run, !frSize_proportion. reflexivity.
Qed.

(** C7: on a descriptor, [gridColumns] and [gridColumnStyles] read the
    message shape and nothing else: each normalized value feeds the
    track of its own text column, the raw id and score hints feed the
    two [rem] tracks, the tracks are laid out in the order id, input,
    target, answer, limit, score, and the descriptor object is the same
    after the call as before, whether it is present or not. *)
Theorem gridColumns_uses_shape_as_stated
        (d : SamplesDescriptor Input Target Markup) :
  let n := MessageShape.normalized (messageShape d) in
  let r := MessageShape.raw (messageShape d) in
  let cols :=
    {| Columns.input := feedsFr (MessageShape.input n);
       Columns.target := feedsFr (MessageShape.target n);
       Columns.answer := feedsFr (MessageShape.answer n);
       Columns.limit := feedsFr (MessageShape.limit n);
       Columns.id := feedsRem 2 (MessageShape.id r);
       Columns.score := feedsRem 3 (MessageShape.score r) |} in
  runState gridColumns (Some d) = (cols, Some d)
  /\ runState gridColumnStyles (Some d) =
     ({| GridStyle.gridGap := "10px";
         GridStyle.gridTemplateColumns :=
           [ Columns.id cols; Columns.input cols; Columns.target cols;
             Columns.answer cols; Columns.limit cols; Columns.score cols ];
         GridStyle.paddingLeft := "1rem";
         GridStyle.paddingRight := "1rem" |}, Some d)
  /\ execState gridColumns (@None (SamplesDescriptor Input Target Markup))
     = None
  /\ execState gridColumnStyles
       (@None (SamplesDescriptor Input Target Markup)) = None.
Proof.
  intros n r cols.
  pose proof (gridColumns_present d) as Hrun. cbv zeta in Hrun.
  fold n r cols in Hrun.
  split; [exact Hrun|].
  split.
  { unfold gridColumnStyles.
    change (runState (bind gridColumns ?k) (Some d))
      with (let (c, s) := runState gridColumns (Some d) in
            runState (k c) s).
    rewrite Hrun. reflexivity. }
  split; reflexivity.
Qed.

Lemma feedsFr_bounds (v : Q) :
  ((v <= 0)%Q /\ feedsFr v = Css.Zero)
  \/ ((0 < v)%Q /\ atLeastFr kMinFr (feedsFr v)).
Proof.
  destruct (feedsFr_cases v) as [[H E]|[[H [H' E]]|[H E]]].
  - left. auto.
  - right. split; [exact H|]. exists kMinFr. split; [exact E|lra].
  - right. pose proof kMinFr_positive. split; [lra|].
    exists v. split; [exact E|exact H].
Qed.

Lemma headerLabel_empty (w : Css.width) (c : TextColumn) :
  headerLabel w (columnLabel c) = "" <-> w = Css.Zero.
Proof.
  unfold headerLabel. destruct w; cbn; split; intros H;
    try reflexivity; try discriminate; destruct c; discriminate.
Qed.

Lemma shownLabel_headerRow (D : Descr Input Target Markup) (c : TextColumn) :
  shownLabel c (headerRow D)
  = headerLabel (widthOf c (columnsOf D)) (columnLabel c).
Proof. destruct c; reflexivity. Qed.

(** C9, as the code has it. Without a descriptor the four text tracks
    are "0". With a descriptor, a text track is "0" when its normalized
    value is not positive and at least 0.15fr when it is; the id track
    is between 2 and 10 rem and the score track between 3 and 10 rem.
    In both cases the header shows an empty label for a text column
    exactly when the track of that column is "0". *)
Theorem gridColumns_bounds
        (d : SamplesDescriptor Input Target Markup) (c : TextColumn) :
  let n := MessageShape.normalized (messageShape d) in
  let absent := @None (SamplesDescriptor Input Target Markup) in
  widthOf c (columnsOf absent) = Css.Zero
  /\ (((supplied c n <= 0)%Q /\ widthOf c (columnsOf (Some d)) = Css.Zero)
      \/ ((0 < supplied c n)%Q
          /\ atLeastFr kMinFr (widthOf c (columnsOf (Some d)))))
  /\ clamped 2 10 (Columns.id (columnsOf (Some d)))
  /\ clamped 3 10 (Columns.score (columnsOf (Some d)))
  /\ (shownLabel c (headerRow (Some d)) = ""
      <-> widthOf c (columnsOf (Some d)) = Css.Zero)
  /\ (shownLabel c (headerRow absent) = ""
      <-> widthOf c (columnsOf absent) = Css.Zero).
Proof.
  intros n absent.
  split; [apply widthOf_absent|].
  split; [rewrite widthOf_present; apply feedsFr_bounds|].
  assert (Hid : Columns.id (columnsOf (Some d))
                = feedsRem 2 (MessageShape.id
                                (MessageShape.raw (messageShape d))))
    by (unfold columnsOf, evalState; rewrite gridColumns_present; reflexivity).
  assert (Hscore : Columns.score (columnsOf (Some d))
                   = feedsRem 3 (MessageShape.score
                                   (MessageShape.raw (messageShape d))))
    by (unfold columnsOf, evalState; rewrite gridColumns_present; reflexivity).
  rewrite Hid, Hscore.
  split; [apply feedsRem_clamped; lra|].
  split; [apply feedsRem_clamped; lra|].
  split; rewrite shownLabel_headerRow; apply headerLabel_empty.
Qed.

(** *** The row mapping *)

Lemma forEachRow_app (items : list (ListItem Input Target)) :
  forall index rowIndexes,
    forEachRow items index rowIndexes
    = (rowIndexes ++ forEachRow items index [])%list.
Proof.
  induction items as [|item rest IH]; intros index rowIndexes; cbn.
  - now rewrite app_nil_r.
  - destruct (type item =? "sample").
    + rewrite IH, (IH _ [index]), app_assoc. reflexivity.
    + apply IH.
Qed.

Lemma forEachRow_nth (items : list (ListItem Input Target)) :
  forall index k,
    nth_error (forEachRow items index []) k
    = option_map (fun pos => (index + pos)%nat) (samplePosition items k).
Proof.
  induction items as [|item rest IH]; intros index k; cbn.
  - now destruct k.
  - destruct (type item =? "sample").
    + rewrite forEachRow_app. destruct k as [|k]; cbn.
      * now rewrite Nat.add_0_r.
      * rewrite IH. destruct (samplePosition rest k); cbn; [|reflexivity].
        f_equal. lia.
    + rewrite IH. destruct (samplePosition rest k); cbn; [|reflexivity].
      f_equal. lia.
Qed.

(** [itemRowMapping[k]] is the position of the [k]-th sample. *)
Lemma itemRowMapping_nth (items : list (ListItem Input Target)) (k : nat) :
  nth_error (itemRowMapping items) k = samplePosition items k.
Proof.
  unfold itemRowMapping. rewrite forEachRow_nth.
  now destruct (samplePosition items k).
Qed.

(** [samplePosition] does name the [k]-th sample: the entry there is a
    sample and exactly [k] samples come before it. *)
Lemma samplePosition_sound (items : list (ListItem Input Target)) :
  forall k pos,
    samplePosition items k = Some pos ->
    exists item,
      nth_error items pos = Some item
      /\ type item = "sample"
      /\ samplesIn (firstn pos items) = k.
Proof.
  induction items as [|item rest IH]; intros k pos H; cbn in H.
  - discriminate.
  - destruct (type item =? "sample") eqn:E.
    + destruct k as [|k].
      * injection H as <-. exists item. cbn.
        apply String.eqb_eq in E. auto.
      * destruct (samplePosition rest k) as [p|] eqn:Ep; [|discriminate].
        injection H as <-. destruct (IH _ _ Ep) as [it [H1 [H2 H3]]].
        exists it. cbn. unfold samplesIn in *. cbn. rewrite E. cbn.
        auto.
    + destruct (samplePosition rest k) as [p|] eqn:Ep; [|discriminate].
      injection H as <-. destruct (IH _ _ Ep) as [it [H1 [H2 H3]]].
      exists it. cbn. unfold samplesIn in *. cbn. rewrite E. auto.
Qed.

(** There is a [k]-th sample exactly when [k] is below their number. *)
Lemma samplePosition_in_range (items : list (ListItem Input Target)) :
  forall k,
    (k < samplesIn items)%nat
    <-> exists pos, samplePosition items k = Some pos.
Proof.
  unfold samplesIn.
  induction items as [|item rest IH]; intros k; cbn.
  - split; [lia|intros [? ?]; discriminate].
  - destruct (type item =? "sample"); cbn.
    + destruct k as [|k].
      * split; [eauto|lia].
      * rewrite <- Nat.succ_lt_mono, IH.
        split; intros [pos H].
        -- rewrite H. cbn. eauto.
        -- destruct (samplePosition rest k); [eauto|discriminate].
    + rewrite IH. split; intros [pos H].
      * rewrite H. cbn. eauto.
      * destruct (samplePosition rest k); [eauto|discriminate].
Qed.

(** *** The scroll effect *)

Lemma gt_ofNat (a b : nat) : JS.gt (JS.ofNat a) (JS.ofNat b) = (b <? a)%nat.
Proof.
  unfold JS.gt, JS.ofNat, JS.ofZ. cbn [JS.ToNumber].
  destruct (Nat.ltb_spec b a) as [H|H].
  - apply Qlt_bool_true. rewrite <- Zlt_Qlt. lia.
  - apply Qlt_bool_false. rewrite <- Zle_Qle. lia.
Qed.

Lemma gt_ofNat_null (a : nat) : JS.gt (JS.ofNat a) JS.Null = (0 <? a)%nat.
Proof. exact (gt_ofNat a 0). Qed.

Lemma gt_lastRow (before : option nat) (pos : nat) :
  (if JS.gt (JS.ofNat pos) (lastRow before) then "down" else "up")
  = directionFrom before pos.
Proof.
  unfold directionFrom. destruct before as [q|]; unfold lastRow.
  - now rewrite gt_ofNat.
  - now rewrite gt_ofNat_null.
Qed.

Lemma at_index_in_range (items : list (ListItem Input Target))
      (selectedIndex : Z) (pos : nat) :
  (0 <= selectedIndex)%Z ->
  samplePosition items (Z.to_nat selectedIndex) = Some pos ->
  at_index (itemRowMapping items) selectedIndex = JS.ofNat pos.
Proof.
  intros H0 Hpos. unfold at_index.
  destruct (Z.ltb_spec selectedIndex 0); [lia|].
  now rewrite itemRowMapping_nth, Hpos.
Qed.

Lemma at_index_out_of_range (items : list (ListItem Input Target))
      (selectedIndex : Z) :
  (selectedIndex < 0)%Z
  \/ (Z.of_nat (samplesIn items) <= selectedIndex)%Z ->
  at_index (itemRowMapping items) selectedIndex = JS.Undefined.
Proof.
  intros H. unfold at_index.
  destruct (Z.ltb_spec selectedIndex 0) as [|H0]; [reflexivity|].
  rewrite itemRowMapping_nth.
  destruct (samplePosition items (Z.to_nat selectedIndex)) as [pos|] eqn:E;
    [|reflexivity].
  assert (Z.to_nat selectedIndex < samplesIn items)%nat
    by (apply samplePosition_in_range; eauto).
  lia.
Qed.

(** With no list element the effect does nothing. *)
Lemma scrollEffect_unmounted (items : list (ListItem Input Target))
      (selectedIndex : Z) (r : Refs) :
  listEl r = false -> execState (scrollEffect items selectedIndex) r = r.
Proof. intros H. unfold execState, scrollEffect; cbn. now rewrite H. Qed.

Lemma scrollEffect_mounted (items : list (ListItem Input Target))
      (selectedIndex : Z) (r : Refs) :
  listEl r = true ->
  execState (scrollEffect items selectedIndex) r =
  let actualRowIndex := at_index (itemRowMapping items) selectedIndex in
  {| listEl := true;
     prevSelectedIndexRef := actualRowIndex;
     scrolled :=
       scrolled r ++
       [{| row := actualRowIndex;
           direction := if JS.gt actualRowIndex (prevSelectedIndexRef r)
                        then "down" else "up" |}] |}.
Proof. intros H. unfold execState, scrollEffect; cbn. now rewrite H. Qed.

(** A selected index that names no sample: the call still happens, with
    [undefined] for the row and "up" for the direction. *)
Lemma scrollEffect_out_of_range (items : list (ListItem Input Target))
      (selectedIndex : Z) (r : Refs) :
  listEl r = true ->
  (selectedIndex < 0)%Z
  \/ (Z.of_nat (samplesIn items) <= selectedIndex)%Z ->
  scrolled (execState (scrollEffect items selectedIndex) r)
  = (scrolled r ++ [{| row := JS.Undefined; direction := "up" |}])%list.
Proof.
  intros Hm Hr. rewrite scrollEffect_mounted by exact Hm.
  cbv zeta. rewrite at_index_out_of_range by exact Hr. reflexivity.
Qed.

(** The effect runs after the first render of a non-empty list. *)
Lemma afterRender_first (items : list (ListItem Input Target))
      (deps : EffectDeps) :
  items <> [] ->
  afterRender None deps items = scrollEffect items (depSelectedIndex deps).
Proof. intros H. destruct items; [congruence|reflexivity]. Qed.

(** The effect runs when the selected index differs from the one of the
    previous render. *)
Lemma afterRender_changed (items : list (ListItem Input Target))
      (p deps : EffectDeps) :
  items <> [] ->
  depSelectedIndex p <> depSelectedIndex deps ->
  afterRender (Some p) deps items
  = scrollEffect items (depSelectedIndex deps).
Proof.
  intros H Hsel. destruct items; [congruence|]. cbn.
  unfold sameDeps.
  destruct (Z.eqb_spec (depSelectedIndex p) (depSelectedIndex deps));
    [contradiction|reflexivity].
Qed.

(** C1, as the code has it: for a non-empty list whose list element is
    mounted, a render that changes the selected index to one that names
    a sample (from 0 to the number of samples, excluded) calls
    [scrollToIndex] once, with the position in [items] of that sample
    and with "down" if that position is greater than what
    [prevSelectedIndexRef] holds, as [>] compares the two, and "up"
    otherwise, and records the position in the ref. This is so whatever
    the ref holds: against the row scrolled to last the position itself
    is compared, against [null] (no scroll yet) it is compared with 0,
    and against [undefined] (left by a selected index that named no
    sample) the direction is "up". *)
Theorem selected_sample_scrolled_into_view
        (items : list (ListItem Input Target)) (p deps : EffectDeps)
        (r : Refs) :
  items <> [] ->
  listEl r = true ->
  depSelectedIndex p <> depSelectedIndex deps ->
  (0 <= depSelectedIndex deps < Z.of_nat (samplesIn items))%Z ->
  exists pos : nat,
    let dir :=
      if JS.gt (JS.ofNat pos) (prevSelectedIndexRef r)
      then "down" else "up" in
    samplePosition items (Z.to_nat (depSelectedIndex deps)) = Some pos
    /\ execState (afterRender (Some p) deps items) r
       = {| listEl := true;
            prevSelectedIndexRef := JS.ofNat pos;
            scrolled :=
              scrolled r ++
              [{| row := JS.ofNat pos; direction := dir |}] |}
    /\ (forall before : option nat,
          prevSelectedIndexRef r = lastRow before ->
          dir = directionFrom before pos)
    /\ (prevSelectedIndexRef r = JS.Undefined -> dir = "up").
Proof.
  intros Hne Hm Hchg [H0 Hlt].
  assert (Hk : (Z.to_nat (depSelectedIndex deps) < samplesIn items)%nat)
    by lia.
  apply samplePosition_in_range in Hk. destruct Hk as [pos Hpos].
  exists pos. cbv zeta. split; [exact Hpos|]. split; [|split].
  - rewrite afterRender_changed by assumption.
    rewrite scrollEffect_mounted by exact Hm. cbv zeta.
    now rewrite (at_index_in_range _ _ _ H0 Hpos).
  - intros before ->. apply gt_lastRow.
  - intros ->. reflexivity.
Qed.

(** *** Counting *)

Lemma reduce_count {A : Type} (p : A -> bool) (l : list A) :
  forall start : nat,
    fold_left (fun n x => if p x then (n + 1)%nat else n) l start
    = (start + List.length (filter p l))%nat.
Proof.
  induction l as [|x l IH]; intros start; cbn.
  - lia.
  - rewrite IH. destruct (p x); cbn; lia.
Qed.

Lemma sampleCount_samplesIn (items : list (ListItem Input Target)) :
  sampleCount items = samplesIn items.
Proof.
  unfold sampleCount, samplesIn.
  exact (reduce_count (fun item => type item =? "sample") items 0).
Qed.

Lemma errorCount_errorsIn (items : list (ListItem Input Target)) :
  errorCount items = errorsIn items.
Proof.
  unfold errorCount, errorsIn.
  exact (reduce_count (fun item => JS.truthy (data_error (data item)))
                      items 0).
Qed.

Lemma limitCount_limitsIn (items : list (ListItem Input Target)) :
  limitCount items = limitsIn items.
Proof.
  unfold limitCount, limitsIn.
  exact (reduce_count (fun item => JS.truthy (data_limit (data item)))
                      items 0).
Qed.

(** *** The returned tree *)

Lemma SampleList_nonempty (props : Props Input Target Markup) (hidden : bool) :
  items props <> [] ->
  SampleList percent formatNoDecimal props hidden
  = Container
      [ warningRow percent formatNoDecimal (items props) hidden;
        headerRow (sampleDescriptor props);
        VirtualList (items props) "0"
                    (renderRow (sampleDescriptor props) (selectedIndex props))
                    (onkeydown (selectedIndex props));
        footerRow (items props) ].
Proof.
  intros H. unfold SampleList. destruct (items props); [congruence|].
  reflexivity.
Qed.

Lemma SampleList_empty (props : Props Input Target Markup) (hidden : bool) :
  items props = [] ->
  SampleList percent formatNoDecimal props hidden = EmptyPanel "No Samples".
Proof. intros H. unfold SampleList. now rewrite H. Qed.

(** C3: with no items [SampleList] returns the empty panel saying
    "No Samples", which holds no banner, header, virtual list or footer;
    with items it returns the container holding the banner slot, the
    header row, the virtual list and the footer row. *)
Theorem SampleList_empty_state (props : Props Input Target Markup)
        (hidden : bool) :
  let view := SampleList percent formatNoDecimal props hidden in
  (items props = []
   /\ view = EmptyPanel "No Samples"
   /\ count (@isBanner _ _ _) view = 0%nat
   /\ count (@isHeader _ _ _) view = 0%nat
   /\ count (@isVirtualList _ _ _) view = 0%nat
   /\ count (@isFooter _ _ _) view = 0%nat)
  \/ (items props <> []
      /\ view = Container
                  [ warningRow percent formatNoDecimal (items props) hidden;
                    headerRow (sampleDescriptor props);
                    VirtualList (items props) "0"
                      (renderRow (sampleDescriptor props)
                                 (selectedIndex props))
                      (onkeydown (selectedIndex props));
                    footerRow (items props) ]
      /\ count (@isHeader _ _ _) view = 1%nat
      /\ count (@isVirtualList _ _ _) view = 1%nat
      /\ count (@isFooter _ _ _) view = 1%nat).
Proof.
  intros view. subst view.
  destruct (items props) as [|item rest] eqn:E.
  - left. rewrite (SampleList_empty _ _ E). repeat split; reflexivity.
  - right. split; [discriminate|].
    assert (Hne : items props <> []) by (rewrite E; discriminate).
    rewrite (SampleList_nonempty _ hidden Hne), E.
    split; [reflexivity|].
    unfold count, childrenOf, warningRow.
    destruct (JS.truthy _); repeat split; reflexivity.
Qed.

(** *** Rows *)

Lemma rowsOf_SampleList (props : Props Input Target Markup) (hidden : bool) :
  rowsOf (SampleList percent formatNoDecimal props hidden)
  = map (renderRow (sampleDescriptor props) (selectedIndex props))
        (items props).
Proof.
  destruct (items props) as [|item rest] eqn:E.
  - now rewrite (SampleList_empty _ _ E).
  - assert (Hne : items props <> []) by (rewrite E; discriminate).
    rewrite (SampleList_nonempty _ hidden Hne), E.
    unfold rowsOf, childrenOf, warningRow.
    destruct (JS.truthy _); cbn; now rewrite app_nil_r.
Qed.

Lemma dataOf_SampleList (props : Props Input Target Markup) (hidden : bool) :
  dataOf (SampleList percent formatNoDecimal props hidden) = items props.
Proof.
  destruct (items props) as [|item rest] eqn:E.
  - now rewrite (SampleList_empty _ _ E).
  - assert (Hne : items props <> []) by (rewrite E; discriminate).
    rewrite (SampleList_nonempty _ hidden Hne), E.
    unfold dataOf, childrenOf, warningRow.
    destruct (JS.truthy _); cbn; now rewrite app_nil_r.
Qed.

(** C4: the type of an item decides its row: "sample" gives a
    [SampleRow] of height 88 on the item's data, "separator" gives a
    [SeparatorRow] of height 24 whose title is the item's data, any
    other type gives the empty string; the virtual list receives the
    items as they are and its rows are those of the items, in order. *)
Theorem renderRow_by_type (props : Props Input Target Markup)
        (hidden : bool) (item : ListItem Input Target) :
  let d := sampleDescriptor props in
  let row := renderRow d (selectedIndex props) item in
  ((type item = "sample"
    /\ row = SampleRowElement (number item) (index item) (data item) 88 d
                             (selectedIndex props =? index item)%Z)
   \/ (type item = "separator"
       /\ row = SeparatorRowElement
                  ("sample-group" ++ JS.showZ (number item)) (data item) 24
       /\ separator_title
            (SeparatorRow ("sample-group" ++ JS.showZ (number item))
                          (data item) 24) = data item
       /\ separator_height
            (SeparatorRow ("sample-group" ++ JS.showZ (number item))
                          (data item) 24) = "24px")
   \/ (type item <> "sample" /\ type item <> "separator"
       /\ row = EmptyString))
  /\ dataOf (SampleList percent formatNoDecimal props hidden) = items props
  /\ rowsOf (SampleList percent formatNoDecimal props hidden)
     = map (renderRow d (selectedIndex props)) (items props).
Proof.
  intros d row. subst d row.
  split; [|split; [apply dataOf_SampleList|apply rowsOf_SampleList]].
  unfold renderRow.
  destruct (String.eqb_spec (type item) "sample") as [E|E].
  - left. split; [exact E|reflexivity].
  - destruct (String.eqb_spec (type item) "separator") as [E'|E'].
    + right; left. repeat split; [exact E'].
    + right; right. repeat split; assumption.
Qed.

(** *** Keyboard *)

(** C5: "ArrowUp" calls [prevSample], "ArrowDown" calls [nextSample]
    and "Enter" calls [showSample] with the selected index; each of the
    three then prevents the default action and stops the propagation,
    and returns [false]. Any other key calls nothing and leaves the
    event alone. *)
Theorem onkeydown_keys (selectedIndex : Z) (key : string)
        (log : list Action) :
  let run := runState (onkeydown selectedIndex key) log in
  (key = "ArrowUp"
   /\ run = (Some false,
             log ++ [CallPrevSample; PreventDefault; StopPropagation])%list)
  \/ (key = "ArrowDown"
      /\ run = (Some false,
                log ++ [CallNextSample; PreventDefault; StopPropagation])%list)
  \/ (key = "Enter"
      /\ run = (Some false,
                log ++ [CallShowSample selectedIndex; PreventDefault;
                        StopPropagation])%list)
  \/ (key <> "ArrowUp" /\ key <> "ArrowDown" /\ key <> "Enter"
      /\ run = (None, log)).
Proof.
  intros run. subst run. unfold onkeydown.
  destruct (String.eqb_spec key "ArrowUp") as [E1|E1].
  { left. split; [exact E1|]. cbn. now rewrite <- !app_assoc. }
  destruct (String.eqb_spec key "ArrowDown") as [E2|E2].
  { right; left. split; [exact E2|]. cbn. now rewrite <- !app_assoc. }
  destruct (String.eqb_spec key "Enter") as [E3|E3].
  { right; right; left. split; [exact E3|]. cbn. now rewrite <- !app_assoc. }
  right; right; right. repeat split; assumption.
Qed.

(** *** The sample row *)

Lemma truthy_message (s : option string) :
  JS.truthy s = true -> exists message, s = Some message /\ message <> "".
Proof.
  destruct s as [[|a s]|]; cbn; intros H; try discriminate.
  eexists; split; [reflexivity|discriminate].
Qed.

(** C6: the row of a sample shows the summary's id, its input (through
    [inputString], joined by spaces), its target (through
    [arrayToString]) and its limit in their cells; the score cell holds
    the error indicator with the error message when that message is
    truthy, and otherwise the score the descriptor renders for the
    sample. *)
Theorem SampleRow_cells (id index : Z) (sample : SampleSummary Input Target)
        (sampleDescriptor : Descr Input Target Markup) (height : Z)
        (selected : bool) :
  let row := SampleRow inputString arrayToString id index sample
                       sampleDescriptor height selected in
  sample_id row = summaryId sample
  /\ sample_input row = join (inputString (input sample))
  /\ sample_target row = arrayToString (target sample)
  /\ sample_limit row = limit sample
  /\ ((JS.truthy (error sample) = true
       /\ exists message,
           error sample = Some message
           /\ sample_score row = SampleError message)
      \/ (JS.truthy (error sample) = false
          /\ sample_score row
             = RenderedScore
                 (option_map (fun d => render (selectedScore d sample))
                             sampleDescriptor))).
Proof.
  intros row. subst row. cbn.
  repeat (split; [reflexivity|]).
  destruct (JS.truthy (error sample)) eqn:E.
  - left. split; [reflexivity|].
    destruct (truthy_message _ E) as [message [-> _]]. eauto.
  - right. split; [reflexivity|]. now destruct sampleDescriptor.
Qed.

(** *** Banner and footer *)

Lemma warningMessage_cases (items : list (ListItem Input Target)) :
  ((0 < errorsIn items)%nat
   /\ warningMessage percent formatNoDecimal items
      = Some (errorMessage percent formatNoDecimal items))
  \/ (errorsIn items = 0%nat /\ (0 < limitsIn items)%nat
      /\ warningMessage percent formatNoDecimal items
         = Some (limitMessage percent formatNoDecimal items))
  \/ (errorsIn items = 0%nat /\ limitsIn items = 0%nat
      /\ warningMessage percent formatNoDecimal items = None).
Proof.
  unfold warningMessage.
  rewrite errorCount_errorsIn, limitCount_limitsIn.
  destruct (Nat.ltb_spec 0 (errorsIn items)) as [H|H].
  - left. auto.
  - destruct (Nat.eqb_spec (limitsIn items) 0) as [H'|H']; cbn.
    + right; right. repeat split; [lia|exact H'].
    + right; left. repeat split; lia.
Qed.

(** C8: the returned tree holds at most one banner, the one of the
    banner slot; that slot holds the error message when some item's
    data has a truthy error, else the limit message when some item's
    data has a truthy limit, else no banner. Both messages give the
    count out of the number of samples. *)
Theorem warning_banner (props : Props Input Target Markup) (hidden : bool) :
  let its := items props in
  let slot := warningRow percent formatNoDecimal its hidden in
  (count (@isBanner _ _ _) (SampleList percent formatNoDecimal props hidden)
   <= 1)%nat
  /\ filter (@isBanner _ _ _)
            (childrenOf (SampleList percent formatNoDecimal props hidden))
     = filter (@isBanner _ _ _) [slot]
  /\ (((0 < errorsIn its)%nat
       /\ slot = MessageBand
                   ("INFO: " ++ JS.showNat (errorsIn its) ++ " of "
                      ++ JS.showNat (samplesIn its) ++ " samples ("
                      ++ formatNoDecimal
                           (percent (errorsIn its) (samplesIn its))
                      ++ "%) had errors and were not scored.")
                   hidden "info")
      \/ (errorsIn its = 0%nat /\ (0 < limitsIn its)%nat
          /\ slot = MessageBand
                      ("INFO: " ++ JS.showNat (limitsIn its) ++ " of "
                         ++ JS.showNat (samplesIn its) ++ " samples ("
                         ++ formatNoDecimal
                              (percent (limitsIn its) (samplesIn its))
                         ++ "%) completed due to exceeding a limit.")
                      hidden "info")
      \/ (errorsIn its = 0%nat /\ limitsIn its = 0%nat
          /\ slot = Text "")).
Proof.
  intros its slot.
  assert (Hslot :
    ((0 < errorsIn its)%nat
     /\ slot = MessageBand (errorMessage percent formatNoDecimal its)
                           hidden "info")
    \/ (errorsIn its = 0%nat /\ (0 < limitsIn its)%nat
        /\ slot = MessageBand (limitMessage percent formatNoDecimal its)
                              hidden "info")
    \/ (errorsIn its = 0%nat /\ limitsIn its = 0%nat /\ slot = Text "")).
  { subst slot. unfold warningRow.
    destruct (warningMessage_cases its) as [[H ->]|[[H [H' ->]]|[H [H' ->]]]];
      cbn; auto. }
  assert (Hchildren :
    filter (@isBanner _ _ _)
           (childrenOf (SampleList percent formatNoDecimal props hidden))
    = filter (@isBanner _ _ _) [slot]).
  { subst slot its. destruct (items props) as [|item rest] eqn:E.
    - now rewrite (SampleList_empty _ _ E).
    - assert (Hne : items props <> []) by (rewrite E; discriminate).
      rewrite (SampleList_nonempty _ hidden Hne), E. cbn.
      now destruct (isBanner (warningRow percent formatNoDecimal _ hidden)). }
  split; [|split; [exact Hchildren|]].
  - unfold count. rewrite Hchildren. cbn. destruct (isBanner slot); cbn; lia.
  - unfold errorMessage, limitMessage, percentError, percentLimit in Hslot.
    rewrite errorCount_errorsIn, limitCount_limitsIn, sampleCount_samplesIn
      in Hslot.
    exact Hslot.
Qed.

(** C10: the footer of the returned tree reads the number of items of
    type "sample" followed by " Samples", and that number is the
    denominator of both percentages. *)
Theorem footer_counts_samples (props : Props Input Target Markup)
        (hidden : bool) :
  let its := items props in
  sampleCount its = samplesIn its
  /\ footerRow (Markup := Markup) its
     = FooterRow (JS.showNat (samplesIn its) ++ " Samples")
  /\ filter (@isFooter _ _ _)
            (childrenOf (SampleList percent formatNoDecimal props hidden))
     = match its with
       | [] => []
       | _ :: _ => [footerRow its]
       end
  /\ percentError percent its = percent (errorCount its) (samplesIn its)
  /\ percentLimit percent its = percent (limitCount its) (samplesIn its).
Proof.
  intros its. subst its.
  split; [apply sampleCount_samplesIn|].
  split; [unfold footerRow; now rewrite sampleCount_samplesIn|].
  split.
  - destruct (items props) as [|item rest] eqn:E.
    + now rewrite (SampleList_empty _ _ E).
    + assert (Hne : items props <> []) by (rewrite E; discriminate).
      rewrite (SampleList_nonempty _ hidden Hne), E.
      unfold childrenOf, warningRow.
      now destruct (JS.truthy _).
  - unfold percentError, percentLimit.
    now rewrite sampleCount_samplesIn.
Qed.

(** ** Further properties *)

(** *** Shape of the row mapping *)

Lemma forEachRow_bounds (items : list (ListItem Input Target)) :
  forall index,
    Forall (fun pos => (index <= pos < index + List.length items)%nat)
           (forEachRow items index []).
Proof.
  induction items as [|item rest IH]; intros index; cbn.
  - constructor.
  - assert (Hrest :
      Forall (fun pos => (index <= pos < index + S (List.length rest))%nat)
             (forEachRow rest (S index) [])).
    { eapply Forall_impl; [|apply IH]. cbn. intros pos H. lia. }
    destruct (type item =? "sample"); [|exact Hrest].
    rewrite forEachRow_app. constructor; [lia|exact Hrest].
Qed.

Lemma forEachRow_sorted (items : list (ListItem Input Target)) :
  forall index, StronglySorted lt (forEachRow items index []).
Proof.
  induction items as [|item rest IH]; intros index; cbn.
  - constructor.
  - destruct (type item =? "sample"); [|apply IH].
    rewrite forEachRow_app. constructor; [apply IH|].
    eapply Forall_impl; [|apply forEachRow_bounds]. cbn. intros pos H. lia.
Qed.

Lemma forEachRow_length (items : list (ListItem Input Target)) :
  forall index,
    List.length (forEachRow items index []) = samplesIn items.
Proof.
  unfold samplesIn.
  induction items as [|item rest IH]; intros index; cbn.
  - reflexivity.
  - destruct (type item =? "sample"); [|apply IH].
    rewrite forEachRow_app. cbn. now rewrite IH.
Qed.

Lemma forEachRow_In (items : list (ListItem Input Target)) :
  forall index pos,
    In pos (forEachRow items index [])
    <-> exists i item,
        pos = (index + i)%nat
        /\ nth_error items i = Some item
        /\ type item = "sample".
Proof using.
  clear percent formatNoDecimal inputString arrayToString.
  induction items as [|item rest IH]; intros index pos; cbn.
  - split; [tauto|]. intros [i [it [_ [H _]]]]. now destruct i.
  - assert (Hrest :
      In pos (forEachRow rest (S index) [])
      <-> exists i it, pos = (index + S i)%nat
                       /\ nth_error rest i = Some it /\ type it = "sample").
    { rewrite IH. split; intros [i [it [H1 H2]]]; exists i, it;
        (split; [lia|exact H2]). }
    destruct (String.eqb_spec (type item) "sample") as [E|E].
    + rewrite forEachRow_app. cbn. rewrite Hrest. split.
      * intros [<-|[i [it [H1 [H2 H3]]]]].
        -- exists O, item. cbn. repeat split; [lia|exact E].
        -- exists (S i), it. auto.
      * intros [[|i] [it [H1 [H2 H3]]]]; cbn in H2.
        -- left. lia.
        -- right. eauto.
    + rewrite Hrest. split.
      * intros [i [it [H1 [H2 H3]]]]. exists (S i), it. auto.
      * intros [[|i] [it [H1 [H2 H3]]]]; cbn in H2.
        -- injection H2 as <-. contradiction.
        -- eauto.
Qed.

(** X1: the row mapping lists positions of [items] in strictly
    increasing order, one per entry of type "sample": its length is the
    sample count of the footer, and a position is in it exactly when the
    entry at that position exists and has type "sample". *)
Theorem itemRowMapping_shape (items : list (ListItem Input Target)) (pos : nat) :
  StronglySorted lt (itemRowMapping items)
  /\ List.length (itemRowMapping items) = sampleCount items
  /\ (In pos (itemRowMapping items)
      <-> exists item, nth_error items pos = Some item
                       /\ type item = "sample").
Proof using.
  unfold itemRowMapping.
  split; [apply forEachRow_sorted|].
  split; [now rewrite forEachRow_length, sampleCount_samplesIn|].
  rewrite forEachRow_In. split.
  - intros [i [it [-> H]]]. exists it. exact H.
  - intros [it H]. exists pos, it. auto.
Qed.

Lemma forEachRow_shift (items : list (ListItem Input Target)) :
  forall index shift,
    forEachRow items (shift + index) []
    = map (fun pos => (shift + pos)%nat) (forEachRow items index []).
Proof.
  induction items as [|item rest IH]; intros index shift; cbn.
  - reflexivity.
  - destruct (type item =? "sample").
    + rewrite forEachRow_app, (forEachRow_app rest (S index)). cbn.
      now rewrite <- IH, Nat.add_succ_r.
    + now rewrite <- IH, Nat.add_succ_r.
Qed.

Lemma forEachRow_concat (first second : list (ListItem Input Target)) :
  forall index,
    forEachRow (first ++ second) index []
    = (forEachRow first index []
       ++ forEachRow second (List.length first + index) [])%list.
Proof.
  induction first as [|item rest IH]; intros index; cbn.
  - reflexivity.
  - destruct (type item =? "sample").
    + rewrite forEachRow_app, (forEachRow_app rest (S index)), IH. cbn.
      now rewrite Nat.add_succ_r.
    + now rewrite IH, Nat.add_succ_r.
Qed.

(** X2: the mapping of two lists put end to end is the mapping of the
    first followed by the mapping of the second moved by the length of
    the first; entries that are not samples only move the rows after
    them. *)
Theorem itemRowMapping_concat (first second : list (ListItem Input Target)) :
  itemRowMapping (first ++ second)
  = (itemRowMapping first
     ++ map (fun pos => (List.length first + pos)%nat)
            (itemRowMapping second))%list.
Proof.
  unfold itemRowMapping.
  now rewrite forEachRow_concat, forEachRow_shift.
Qed.

(** *** Runs of the scroll effect *)

Lemma lastRowOf_snoc (start : JS.value) (calls : list ScrollCall)
      (call : ScrollCall) :
  lastRowOf start (calls ++ [call]) = row call.
Proof. unfold lastRowOf. now rewrite fold_left_app. Qed.

Lemma consistentFrom_snoc (calls : list ScrollCall) :
  forall (start : JS.value) (call : ScrollCall),
    consistentFrom start calls ->
    direction call
    = (if JS.gt (row call) (lastRowOf start calls) then "down" else "up") ->
    consistentFrom start (calls ++ [call]).
Proof.
  induction calls as [|c rest IH]; intros start call Hc Hd; cbn in *.
  - auto.
  - destruct Hc as [H1 H2]. split; [exact H1|]. apply IH; assumption.
Qed.

Lemma scrollEffect_keeps (items : list (ListItem Input Target))
      (selectedIndex : Z) (r : Refs) :
  refsAgree r ->
  let r' := execState (scrollEffect items selectedIndex) r in
  refsAgree r'
  /\ listEl r' = listEl r
  /\ List.length (scrolled r')
     = (List.length (scrolled r) + if listEl r then 1 else 0)%nat.
Proof.
  intros [Hc Hp]. destruct (listEl r) eqn:Hm; cbv zeta.
  - rewrite scrollEffect_mounted by exact Hm. cbv zeta.
    split; [split|split].
    + cbn [scrolled]. apply consistentFrom_snoc; [exact Hc|].
      cbn [row direction]. now rewrite Hp.
    + cbn [scrolled prevSelectedIndexRef]. now rewrite lastRowOf_snoc.
    + reflexivity.
    + cbn [scrolled]. now rewrite length_app.
  - rewrite scrollEffect_unmounted by exact Hm.
    repeat split; auto; lia.
Qed.

Lemma scrollEffects_cons (items : list (ListItem Input Target))
      (selectedIndex : Z) (rest : list (list (ListItem Input Target) * Z))
      (r : Refs) :
  execState (scrollEffects ((items, selectedIndex) :: rest)) r
  = execState (scrollEffects rest)
              (execState (scrollEffect items selectedIndex) r).
Proof.
  unfold execState. cbn [scrollEffects]. cbn -[scrollEffect scrollEffects].
  destruct (runState (scrollEffect items selectedIndex) r). reflexivity.
Qed.

Lemma scrollEffects_keep (renders : list (list (ListItem Input Target) * Z)) :
  forall r : Refs,
    refsAgree r ->
    let r' := execState (scrollEffects renders) r in
    refsAgree r'
    /\ listEl r' = listEl r
    /\ List.length (scrolled r')
       = (List.length (scrolled r)
          + if listEl r then List.length renders else 0)%nat.
Proof.
  induction renders as [|[items selectedIndex] rest IH]; intros r Hr.
  - cbn. repeat split; try apply Hr. destruct (listEl r); lia.
  - cbv zeta. rewrite scrollEffects_cons.
    destruct (scrollEffect_keeps items selectedIndex r Hr) as [H1 [H2 H3]].
    destruct (IH _ H1) as [H4 [H5 H6]]. cbv zeta in *.
    split; [exact H4|]. split; [congruence|].
    rewrite H6, H3, H2. cbn [List.length]. destruct (listEl r); lia.
Qed.

(** X3: whatever the renders of a component instance are, its log of
    [scrollToIndex] calls stays in step with its refs: every call has the
    direction that comparing its row with the row of the call before it
    gives (the first with [null]), the remembered row is the row of the
    last call ([null] before any), and there is one call per effect run
    when the list element is mounted and none when it is not. *)
Theorem scroll_log_consistent
        (renders : list (list (ListItem Input Target) * Z)) (mounted : bool) :
  let r := execState (scrollEffects renders) (initialRefs mounted) in
  consistentFrom JS.Null (scrolled r)
  /\ prevSelectedIndexRef r = lastRowOf JS.Null (scrolled r)
  /\ listEl r = mounted
  /\ List.length (scrolled r)
     = (if mounted then List.length renders else 0)%nat.
Proof.
  assert (H0 : refsAgree (initialRefs mounted)) by (split; reflexivity).
  destruct (scrollEffects_keep renders _ H0) as [[H1 H2] [H3 H4]].
  cbv zeta in *. repeat split; assumption.
Qed.

Lemma sorted_nth_lt (l : list nat) :
  StronglySorted lt l ->
  forall i j a b,
    (i < j)%nat -> nth_error l i = Some a -> nth_error l j = Some b ->
    (a < b)%nat.
Proof.
  induction 1 as [|x l Hs IH Hall]; intros i j a b Hij Ha Hb.
  - now destruct i.
  - destruct j as [|j]; [lia|]. cbn in Hb.
    destruct i as [|i]; cbn in Ha.
    + injection Ha as <-. rewrite Forall_forall in Hall.
      apply Hall. eapply nth_error_In. exact Hb.
    + eapply (IH i j); [lia|eassumption|eassumption].
Qed.

(** A later sample sits at a later position. *)
Lemma samplePosition_increasing (items : list (ListItem Input Target))
      (k1 k2 p1 p2 : nat) :
  (k1 < k2)%nat ->
  samplePosition items k1 = Some p1 ->
  samplePosition items k2 = Some p2 ->
  (p1 < p2)%nat.
Proof.
  intros Hk H1 H2. rewrite <- itemRowMapping_nth in H1, H2.
  eapply sorted_nth_lt; [|exact Hk|exact H1|exact H2].
  apply forEachRow_sorted.
Qed.

Lemma in_range_position (items : list (ListItem Input Target)) (k : Z) :
  (0 <= k < Z.of_nat (samplesIn items))%Z ->
  exists pos, samplePosition items (Z.to_nat k) = Some pos
              /\ at_index (itemRowMapping items) k = JS.ofNat pos.
Proof.
  intros [H0 H1].
  assert (Hk : (Z.to_nat k < samplesIn items)%nat) by lia.
  apply samplePosition_in_range in Hk. destruct Hk as [pos Hpos].
  exists pos. split; [exact Hpos|]. now apply at_index_in_range.
Qed.

(** X4: on a mounted list, when the selection moves from one sample to
    another of the same items, the second call scrolls "down" exactly
    when the new selected index is the greater one; selecting an earlier
    sample, or the same one again, scrolls "up". *)
Theorem scroll_direction_follows_selection
        (items : list (ListItem Input Target)) (k1 k2 : Z) (r : Refs) :
  listEl r = true ->
  (0 <= k1 < Z.of_nat (samplesIn items))%Z ->
  (0 <= k2 < Z.of_nat (samplesIn items))%Z ->
  let r1 := execState (scrollEffect items k1) r in
  let r2 := execState (scrollEffect items k2) r1 in
  exists pos : nat,
    samplePosition items (Z.to_nat k2) = Some pos
    /\ scrolled r2
       = (scrolled r1
          ++ [{| row := JS.ofNat pos;
                 direction := if (k1 <? k2)%Z then "down" else "up" |}])%list.
Proof.
  intros Hm H1 H2 r1 r2. subst r1 r2.
  destruct (in_range_position items k1 H1) as [p1 [Hp1 Ha1]].
  destruct (in_range_position items k2 H2) as [p2 [Hp2 Ha2]].
  exists p2. split; [exact Hp2|].
  rewrite (scrollEffect_mounted items k1 r Hm). cbv zeta.
  rewrite scrollEffect_mounted by reflexivity. cbv zeta.
  cbn [scrolled prevSelectedIndexRef]. rewrite Ha1, Ha2, gt_ofNat.
  do 3 f_equal.
  destruct (Z.ltb_spec k1 k2) as [Hlt|Hge].
  - assert (p1 < p2)%nat
      by (eapply samplePosition_increasing; [|exact Hp1|exact Hp2]; lia).
    destruct (Nat.ltb_spec p1 p2); [reflexivity|lia].
  - destruct (Z.eq_dec k1 k2) as [->|Hne].
    + assert (p1 = p2) by congruence. subst.
      now rewrite Nat.ltb_irrefl.
    + assert (p2 < p1)%nat
        by (eapply samplePosition_increasing; [|exact Hp2|exact Hp1]; lia).
      destruct (Nat.ltb_spec p1 p2); [lia|reflexivity].
Qed.

(** X5: after a selected index that names no sample (a negative one, or
    one past the last sample) the remembered row is [undefined], so the
    next scroll to a sample is "up" wherever that sample sits. *)
Theorem scroll_after_no_selection_is_up
        (items : list (ListItem Input Target)) (k1 k2 : Z) (r : Refs) :
  listEl r = true ->
  (k1 < 0)%Z \/ (Z.of_nat (samplesIn items) <= k1)%Z ->
  (0 <= k2 < Z.of_nat (samplesIn items))%Z ->
  let r1 := execState (scrollEffect items k1) r in
  let r2 := execState (scrollEffect items k2) r1 in
  prevSelectedIndexRef r1 = JS.Undefined
  /\ exists pos : nat,
      samplePosition items (Z.to_nat k2) = Some pos
      /\ scrolled r2
         = (scrolled r1
            ++ [{| row := JS.ofNat pos; direction := "up" |}])%list.
Proof.
  intros Hm H1 H2 r1 r2. subst r1 r2.
  destruct (in_range_position items k2 H2) as [p2 [Hp2 Ha2]].
  rewrite (scrollEffect_mounted items k1 r Hm). cbv zeta.
  rewrite (at_index_out_of_range items k1 H1).
  split; [reflexivity|]. exists p2. split; [exact Hp2|].
  rewrite scrollEffect_mounted by reflexivity. cbv zeta.
  cbn [scrolled prevSelectedIndexRef]. now rewrite Ha2.
Qed.

(** *** Selection and rows *)

Lemma indexedFrom_index (items : list (ListItem Input Target)) :
  forall start k pos item,
    indexedFrom start items = true ->
    samplePosition items k = Some pos ->
    nth_error items pos = Some item ->
    index item = Z.of_nat (start + k).
Proof.
  induction items as [|it rest IH]; intros start k pos item Hi Hp Hn;
    cbn in Hi, Hp.
  - discriminate.
  - destruct (type it =? "sample").
    + apply andb_prop in Hi. destruct Hi as [Hi1 Hi2].
      destruct k as [|k].
      * injection Hp as <-. cbn in Hn. injection Hn as <-.
        apply Z.eqb_eq in Hi1. rewrite Hi1. f_equal. lia.
      * destruct (samplePosition rest k) as [p|] eqn:E; [|discriminate].
        injection Hp as <-. cbn in Hn.
        rewrite (IH (S start) k p item Hi2 E Hn). f_equal. lia.
    + destruct (samplePosition rest k) as [p|] eqn:E; [|discriminate].
      injection Hp as <-. cbn in Hn. exact (IH start k p item Hi E Hn).
Qed.

Lemma sample_has_ordinal (items : list (ListItem Input Target))
      (pos : nat) (item : ListItem Input Target) :
  nth_error items pos = Some item ->
  type item = "sample" ->
  exists k, samplePosition items k = Some pos.
Proof using.
  intros Hn Ht.
  assert (Hin : In pos (itemRowMapping items)).
  { unfold itemRowMapping. apply forEachRow_In. exists pos, item. auto. }
  apply In_nth_error in Hin. destruct Hin as [k Hk].
  exists k. now rewrite <- itemRowMapping_nth.
Qed.

Lemma isSelectedRow_true (d : Descr Input Target Markup) (selectedIndex : Z)
      (item : ListItem Input Target) :
  isSelectedRow (renderRow d selectedIndex item) = true
  <-> type item = "sample" /\ index item = selectedIndex.
Proof.
  unfold renderRow.
  destruct (String.eqb_spec (type item) "sample") as [E|E]; cbn.
  - rewrite Z.eqb_eq. intuition congruence.
  - destruct (type item =? "separator"); cbn; intuition congruence.
Qed.

(** X6: when the samples carry the indexes 0, 1, 2, ... in list order,
    the row the effect scrolls to for a selected index that names a
    sample is the one row that [renderRow] draws as selected. *)
Theorem scrolled_row_is_selected_row
        (items : list (ListItem Input Target))
        (d : Descr Input Target Markup) (selectedIndex : Z) :
  indexedFrom 0 items = true ->
  (0 <= selectedIndex < Z.of_nat (samplesIn items))%Z ->
  exists pos : nat,
    at_index (itemRowMapping items) selectedIndex = JS.ofNat pos
    /\ forall q item,
        nth_error items q = Some item ->
        (isSelectedRow (renderRow d selectedIndex item) = true <-> q = pos).
Proof using.
  intros Hi Hr.
  destruct (in_range_position items selectedIndex Hr) as [pos [Hpos Hat]].
  exists pos. split; [exact Hat|].
  intros q item Hq. rewrite isSelectedRow_true. split.
  - intros [Ht Hx].
    destruct (sample_has_ordinal items q item Hq Ht) as [k Hk].
    pose proof (indexedFrom_index items 0 k q item Hi Hk Hq) as Hidx.
    assert (k = Z.to_nat selectedIndex) by lia. subst k. congruence.
  - intros ->.
    destruct (samplePosition_sound items _ _ Hpos) as [it [H1 [H2 _]]].
    assert (it = item) by congruence. subst it.
    split; [exact H2|].
    rewrite (indexedFrom_index items 0 _ pos item Hi Hpos Hq). lia.
Qed.



(** *** More on the layout *)

Lemma frNumber_feedsFr (v : Q) :
  ((v <= 0)%Q /\ frNumber (feedsFr v) = 0%Q)
  \/ ((0 < v)%Q /\ (frNumber (feedsFr v) == Qmax kMinFr v)%Q).
Proof.
  destruct (feedsFr_cases v) as [[H E]|[[H [H' E]]|[H E]]]; rewrite E; cbn.
  - left. auto.
  - right. split; [exact H|]. symmetry. apply Q.max_l. lra.
  - right. pose proof kMinFr_positive. split; [lra|].
    symmetry. apply Q.max_r. exact H.
Qed.

(** X8: a text column never gets narrower when its normalized value
    grows: for two descriptors, the one that supplies the greater value
    for a column gets at least as many [fr] for it. *)
Theorem text_track_monotone
        (d1 d2 : SamplesDescriptor Input Target Markup) (c : TextColumn) :
  (supplied c (MessageShape.normalized (messageShape d1))
   <= supplied c (MessageShape.normalized (messageShape d2)))%Q ->
  (frNumber (widthOf c (columnsOf (Some d1)))
   <= frNumber (widthOf c (columnsOf (Some d2))))%Q.
Proof.
  rewrite !widthOf_present.
  set (v1 := supplied c _). set (v2 := supplied c _). intros Hle.
  pose proof kMinFr_positive as Hk.
  destruct (frNumber_feedsFr v1) as [[H1 E1]|[H1 E1]];
    destruct (frNumber_feedsFr v2) as [[H2 E2]|[H2 E2]];
    rewrite E1, E2; try lra.
  - apply Qle_trans with kMinFr; [lra|apply Q.le_max_l].
  - apply Q.max_le_compat_l. exact Hle.
Qed.

Lemma feedsRem_value (lo v : Q) :
  exists q : Q,
    feedsRem lo v = Css.Rem (JS.Fin q) /\ (q == Qmax lo (Qmin 10 v))%Q.
Proof.
  unfold feedsRem; cbn. eexists; split; [reflexivity|].
  assert (Hmin : ((if Qle_bool 10 v then 10 else v) == Qmin 10 v)%Q).
  { destruct (Qle_bool 10 v) eqn:E.
    - apply Qle_bool_iff in E. symmetry. apply Q.min_l. exact E.
    - symmetry. apply Q.min_r. apply Qlt_le_weak, Qnot_le_lt.
      intros Hle. apply Qle_bool_iff in Hle. congruence. }
  set (m := if Qle_bool 10 v then 10%Q else v) in *.
  destruct (Qle_bool lo m) eqn:E.
  - apply Qle_bool_iff in E. rewrite <- Hmin. symmetry. now apply Q.max_r.
  - rewrite <- Hmin. symmetry. apply Q.max_l.
    apply Qlt_le_weak, Qnot_le_lt.
    intros Hle. apply Qle_bool_iff in Hle. congruence.
Qed.

(** X9: with a descriptor, the id track is the raw id hint brought into
    2..10 and the score track the raw score hint brought into 3..10: a
    hint inside the range is used as it is, a smaller one is raised to the
    lower bound and a greater one is cut at 10. *)
Theorem rem_tracks_clamp_hints (d : SamplesDescriptor Input Target Markup) :
  let r := MessageShape.raw (messageShape d) in
  exists qid qscore : Q,
    Columns.id (columnsOf (Some d)) = Css.Rem (JS.Fin qid)
    /\ Columns.score (columnsOf (Some d)) = Css.Rem (JS.Fin qscore)
    /\ (qid == Qmax 2 (Qmin 10 (MessageShape.id r)))%Q
    /\ (qscore == Qmax 3 (Qmin 10 (MessageShape.score r)))%Q.
Proof.
  intros r.
  destruct (feedsRem_value 2 (MessageShape.id r)) as [qid [Eid Hid]].
  destruct (feedsRem_value 3 (MessageShape.score r)) as [qs [Es Hs]].
  exists qid, qs.
  unfold columnsOf, evalState. rewrite gridColumns_present.
  cbn [fst Columns.id Columns.score]. fold r. auto.
Qed.

(** *** More on the counters *)

Lemma filter_length_mono {A : Type} (p q : A -> bool) (l : list A) :
  (forall x, In x l -> p x = true -> q x = true) ->
  (List.length (filter p l) <= List.length (filter q l))%nat.
Proof.
  induction l as [|x l IH]; intros H; cbn; [lia|].
  assert (IH' : (List.length (filter p l) <= List.length (filter q l))%nat)
    by (apply IH; intros y Hy; apply H; now right).
  destruct (p x) eqn:Ep.
  - rewrite (H x (or_introl eq_refl) Ep). cbn. lia.
  - destruct (q x); cbn; lia.
Qed.

Lemma summary_items_are_samples (items : list (ListItem Input Target))
      (f : SampleSummary Input Target -> option string)
      (g : ItemData Input Target -> option string) :
  (forall s, g (DataSample s) = f s) ->
  (forall t, g (DataTitle t) = None) ->
  summariesAreSamples items = true ->
  forall item, In item items ->
    JS.truthy (g (data item)) = true -> (type item =? "sample") = true.
Proof.
  intros Hs Ht Hall item Hin Htruthy.
  unfold summariesAreSamples in Hall. rewrite forallb_forall in Hall.
  specialize (Hall item Hin).
  destruct (data item) as [s|t]; [exact Hall|].
  rewrite Ht in Htruthy. discriminate.
Qed.

(** X10: when only entries of type "sample" carry a summary (separators
    carry their title), the banner never counts more errors or limits
    than there are samples, and whenever a banner message is produced the
    sample count it divides by is at least one. *)
Theorem banner_counts_bounded (items : list (ListItem Input Target)) :
  summariesAreSamples items = true ->
  (errorCount items <= sampleCount items)%nat
  /\ (limitCount items <= sampleCount items)%nat
  /\ (sampleCount items <= List.length items)%nat
  /\ (warningMessage percent formatNoDecimal items <> None ->
      (1 <= sampleCount items)%nat).
Proof.
  intros Hall.
  assert (He : (errorCount items <= sampleCount items)%nat).
  { rewrite errorCount_errorsIn, sampleCount_samplesIn.
    apply filter_length_mono.
    apply (summary_items_are_samples items (@error _ _) (@data_error _ _));
      auto. }
  assert (Hl : (limitCount items <= sampleCount items)%nat).
  { rewrite limitCount_limitsIn, sampleCount_samplesIn.
    apply filter_length_mono.
    apply (summary_items_are_samples items (@limit _ _) (@data_limit _ _));
      auto. }
  repeat split; try assumption.
  - rewrite sampleCount_samplesIn. apply List.filter_length_le.
  - intros Hw. unfold warningMessage in Hw.
    destruct (Nat.ltb_spec 0 (errorCount items)); [lia|].
    destruct (Nat.eqb_spec (limitCount items) 0); cbn in Hw;
      [congruence|lia].
Qed.

Lemma filter_length_perm {A : Type} (p : A -> bool) (l l' : list A) :
  Permutation l l' ->
  List.length (filter p l) = List.length (filter p l').
Proof.
  induction 1 as [|x l l' _ IH|x y l|l l' l'' _ IH1 _ IH2]; cbn.
  - reflexivity.
  - destruct (p x); cbn; now rewrite IH.
  - destruct (p x), (p y); reflexivity.
  - congruence.
Qed.

(** X11: the banner and the footer do not depend on the order of the
    items: a list with the same items in another order gives the same
    banner slot and the same footer. *)
Theorem banner_and_footer_ignore_order
        (items items' : list (ListItem Input Target)) (hidden : bool) :
  Permutation items items' ->
  warningRow (Markup := Markup) percent formatNoDecimal items hidden
  = warningRow percent formatNoDecimal items' hidden
  /\ footerRow (Markup := Markup) items = footerRow items'.
Proof.
  intros Hp.
  assert (Hs : sampleCount items = sampleCount items')
    by (rewrite !sampleCount_samplesIn; now apply filter_length_perm).
  assert (He : errorCount items = errorCount items')
    by (rewrite !errorCount_errorsIn; now apply filter_length_perm).
  assert (Hl : limitCount items = limitCount items')
    by (rewrite !limitCount_limitsIn; now apply filter_length_perm).
  unfold warningRow, warningMessage, errorMessage, limitMessage,
    percentError, percentLimit, footerRow.
  now rewrite Hs, He, Hl.
Qed.

(** X12: the effect never asks for a row outside the list or for a
    separator: on a mounted list the row of the call it adds is either
    [undefined] or the position of an entry of type "sample". *)
Theorem scroll_target_is_a_sample
        (items : list (ListItem Input Target)) (selectedIndex : Z) (r : Refs) :
  listEl r = true ->
  exists call : ScrollCall,
    scrolled (execState (scrollEffect items selectedIndex) r)
    = (scrolled r ++ [call])%list
    /\ (row call = JS.Undefined
        \/ exists pos item,
            row call = JS.ofNat pos
            /\ nth_error items pos = Some item
            /\ type item = "sample").
Proof.
  intros Hm. rewrite scrollEffect_mounted by exact Hm. cbv zeta.
  eexists. split; [reflexivity|]. cbn [row].
  unfold at_index. destruct (selectedIndex <? 0)%Z; [now left|].
  rewrite itemRowMapping_nth.
  destruct (samplePosition items (Z.to_nat selectedIndex)) as [pos|] eqn:E;
    [|now left].
  right. destruct (samplePosition_sound items _ _ E) as [item [H1 [H2 _]]].
  exists pos, item. auto.
Qed.

(** *** Ids, clicks and keys *)

Lemma showZ_parses (z : Z) :
  NilZero.int_of_string (JS.showZ z) = Some (Z.to_int z).
Proof.
  unfold JS.showZ. apply NilZero.isi; destruct z; cbn; try discriminate;
    intros [= E]; exact (DecimalPos.Unsigned.to_uint_nonnil _ E).
Qed.

Lemma showZ_inj (a b : Z) : JS.showZ a = JS.showZ b -> a = b.
Proof.
  intros H. apply DecimalZ.to_int_inj.
  pose proof (showZ_parses a) as Ha. rewrite H, showZ_parses in Ha.
  now injection Ha.
Qed.

Lemma showZ_not_group (z : Z) (s : string) : JS.showZ z <> "group" ++ s.
Proof.
  intros H. pose proof (showZ_parses z) as Hz. rewrite H in Hz.
  cbn in Hz. destruct (NilEmpty.uint_of_string s); discriminate.
Qed.

(** X13: the [id] attributes of rendered rows tell the rows apart: two
    items whose rows get the same id have the same type and the same
    [number]; a sample row and a separator row never share an id. *)
Theorem row_ids_distinguish (d : Descr Input Target Markup)
        (selectedIndex : Z) (a b : ListItem Input Target) (x : string) :
  domId inputString arrayToString (renderRow d selectedIndex a) = Some x ->
  domId inputString arrayToString (renderRow d selectedIndex b) = Some x ->
  type a = type b /\ number a = number b.
Proof.
  unfold renderRow.
  destruct (String.eqb_spec (type a) "sample") as [Ea|Ea];
    destruct (String.eqb_spec (type b) "sample") as [Eb|Eb].
  - destruct (data a), (data b); cbn; intros [= <-] [= H]; try discriminate.
    split; [congruence|]. symmetry. now apply showZ_inj.
  - destruct (String.eqb_spec (type b) "separator") as [Eb'|Eb'];
      [|cbn; intros; discriminate].
    destruct (data a); cbn; intros [= <-] [= H]; try discriminate.
    exfalso. exact (showZ_not_group _ _ (eq_sym H)).
  - destruct (String.eqb_spec (type a) "separator") as [Ea'|Ea'];
      [|cbn; intros; discriminate].
    destruct (data b); cbn; intros [= <-] [= H]; try discriminate.
    exfalso. exact (showZ_not_group _ _ H).
  - destruct (String.eqb_spec (type a) "separator") as [Ea'|Ea'];
      [|cbn; intros; discriminate].
    destruct (String.eqb_spec (type b) "separator") as [Eb'|Eb'];
      [|cbn; intros; discriminate].
    cbn. intros [= <-] [= H]. split; [congruence|].
    symmetry. now apply showZ_inj.
Qed.

(** X14: clicking a rendered sample row calls [showSample] with the
    [index] of its item and touches nothing else; on the row drawn as
    selected that is the call the Enter key makes, which then also
    consumes the key event. *)
Theorem click_is_enter_on_selected_row
        (d : Descr Input Target Markup) (selectedIndex : Z)
        (item : ListItem Input Target) (view : SampleRowView Markup)
        (log : list Action) :
  mountSampleRow inputString arrayToString (renderRow d selectedIndex item)
  = Some view ->
  execState (row_onclick view) log
  = (log ++ [CallShowSample (index item)])%list
  /\ (row_selected view = true ->
      execState (onkeydown selectedIndex "Enter") log
      = (execState (row_onclick view) log
         ++ [PreventDefault; StopPropagation])%list).
Proof.
  unfold renderRow.
  destruct (type item =? "sample");
    [|destruct (type item =? "separator"); cbn; discriminate].
  destruct (data item) as [sample|title]; cbn; [|discriminate].
  intros [= <-]. cbn. split; [reflexivity|].
  intros Hsel. apply Z.eqb_eq in Hsel. subst selectedIndex.
  now rewrite <- !app_assoc.
Qed.

Lemma keydowns_cons (selectedIndex : Z) (key : string) (rest : list string)
      (log : list Action) :
  execState (keydowns selectedIndex (key :: rest)) log
  = execState (keydowns selectedIndex rest)
              (execState (onkeydown selectedIndex key) log).
Proof.
  unfold execState. cbn [keydowns]. cbn -[onkeydown keydowns].
  destruct (runState (onkeydown selectedIndex key) log). reflexivity.
Qed.

Lemma onkeydown_adds (selectedIndex : Z) (key : string) (log : list Action) :
  exists added : list Action,
    execState (onkeydown selectedIndex key) log = (log ++ added)%list
    /\ List.length (filter isCallback added)
       = (if handled key then 1 else 0)%nat
    /\ List.length (filter isPreventDefault added)
       = (if handled key then 1 else 0)%nat
    /\ List.length (filter isStopPropagation added)
       = (if handled key then 1 else 0)%nat.
Proof.
  unfold onkeydown, handled, execState.
  destruct (key =? "ArrowUp");
    [eexists; cbn; rewrite <- !app_assoc; cbn; repeat split; reflexivity|].
  destruct (key =? "ArrowDown");
    [eexists; cbn; rewrite <- !app_assoc; cbn; repeat split; reflexivity|].
  destruct (key =? "Enter");
    [eexists; cbn; rewrite <- !app_assoc; cbn; repeat split; reflexivity|].
  exists []. cbn. rewrite app_nil_r. repeat split; reflexivity.
Qed.

(** X15: over any series of key events the handler only appends to what
    has been called before, and it pairs its calls: the number of
    callbacks invoked, of [preventDefault] calls and of
    [stopPropagation] calls are all the number of handled keys
    ("ArrowUp", "ArrowDown", "Enter") of the series. *)
Theorem keydowns_pair_calls (selectedIndex : Z) (keys : list string)
        (log : list Action) :
  exists added : list Action,
    execState (keydowns selectedIndex keys) log = (log ++ added)%list
    /\ List.length (filter isCallback added)
       = List.length (filter handled keys)
    /\ List.length (filter isPreventDefault added)
       = List.length (filter handled keys)
    /\ List.length (filter isStopPropagation added)
       = List.length (filter handled keys).
Proof.
  revert log. induction keys as [|key rest IH]; intros log.
  - exists []. cbn. rewrite app_nil_r. repeat split; reflexivity.
  - rewrite keydowns_cons.
    destruct (onkeydown_adds selectedIndex key log)
      as [first [-> [H1 [H2 H3]]]].
    destruct (IH (log ++ first)%list) as [more [-> [H4 [H5 H6]]]].
    exists (first ++ more)%list. rewrite <- app_assoc.
    split; [reflexivity|].
    rewrite !filter_app, !length_app, H1, H2, H3, H4, H5, H6. cbn.
    destruct (handled key); cbn; repeat split; reflexivity.
Qed.

End Properties.

(** ** Concrete runs *)

Example showZ_negative : JS.showZ (-12) = "-12".
Proof. reflexivity. Qed.

Example separator_id_text :
  renderRow Examples.absent 0 (Examples.separator 2 "Group 2")
  = SeparatorRowElement "sample-group2" (DataTitle "Group 2") 24.
Proof. reflexivity. Qed.

Example grouped_row_mapping : itemRowMapping Examples.grouped = [1; 2; 4]%nat.
Proof. reflexivity. Qed.

Example footer_of_grouped :
  footerRow (Markup := unit) Examples.grouped = FooterRow "3 Samples".
Proof. reflexivity. Qed.

Example arrow_down_run :
  runState (onkeydown 2 "ArrowDown") []
  = (Some false, [CallNextSample; PreventDefault; StopPropagation]).
Proof. reflexivity. Qed.

Example wide_columns :
  GridStyle.gridTemplateColumns
    (gridStyleOf (Some (Examples.descriptor Examples.wide)))
  = [ Css.Rem (JS.Fin 2); Css.Fr (JS.Fin 0.4); Css.Fr (JS.Fin 0.2);
      Css.Fr (JS.Fin 0.3); Css.Zero; Css.Rem (JS.Fin 5) ].
Proof. reflexivity. Qed.

(** The list was mounted with index -1 selected, which left [undefined]
    in the ref; the selected index now moves to 2 in [Examples.grouped]:
    the third sample sits at position 4 and the direction is "up". *)
Lemma selected_sample_scrolled_into_view_witness :
  exists pos : nat,
    samplePosition Examples.grouped 2 = Some pos
    /\ execState
         (afterRender
            (Some {| depSelectedIndex := -1; depListRef := 0;
                     depMapping := 0 |})
            {| depSelectedIndex := 2; depListRef := 0; depMapping := 0 |}
            Examples.grouped)
         {| listEl := true;
            prevSelectedIndexRef := JS.Undefined;
            scrolled := [{| row := JS.Undefined; direction := "up" |}] |}
       = {| listEl := true;
            prevSelectedIndexRef := JS.ofNat pos;
            scrolled := [{| row := JS.Undefined; direction := "up" |};
                         {| row := JS.ofNat pos; direction := "up" |}] |}.
Proof.
  destruct (selected_sample_scrolled_into_view unit unit Examples.grouped
              {| depSelectedIndex := -1; depListRef := 0; depMapping := 0 |}
              {| depSelectedIndex := 2; depListRef := 0; depMapping := 0 |}
              {| listEl := true;
                 prevSelectedIndexRef := JS.Undefined;
                 scrolled := [{| row := JS.Undefined; direction := "up" |}] |})
    as [pos [Hpos [Hrun _]]].
  - discriminate.
  - reflexivity.
  - discriminate.
  - vm_compute. split; [discriminate | reflexivity].
  - exists pos. split; [exact Hpos|].
    rewrite Hrun. vm_compute in Hpos. injection Hpos as <-. reflexivity.
Defined.

(** C1 as stated fails on a selected index that names no sample:
    [Examples.grouped] has three samples, and with index 3 selected the
    call is [scrollToIndex(undefined, "up")]. *)
Lemma scroll_out_of_range_counterexample :
  Examples.grouped <> []
  /\ scrolled
       (execState
          (afterRender
             (Some {| depSelectedIndex := 0; depListRef := 0; depMapping := 0 |})
             {| depSelectedIndex := 3; depListRef := 0; depMapping := 0 |}
             Examples.grouped)
          (initialRefs true))
     = [{| row := JS.Undefined; direction := "up" |}]
  /\ ~ scrollsSelectedIntoView Examples.grouped 3 (initialRefs true).
Proof.
  split; [discriminate|]. split; [reflexivity|].
  intros [pos [dir H]]. vm_compute in H. discriminate.
Qed.

(** Above the minimum, input and target of [Examples.wide] are in the
    ratio 0.4 to 0.2. *)
Lemma gridColumns_proportional_witness :
  proportional 0.4 0.2
    (widthOf InputColumn
       (columnsOf (Some (Examples.descriptor Examples.wide))))
    (widthOf TargetColumn
       (columnsOf (Some (Examples.descriptor Examples.wide)))).
Proof.
  apply (gridColumns_proportional_above_minimum unit unit unit
           (Examples.descriptor Examples.wide) InputColumn TargetColumn).
  - reflexivity.
  - reflexivity.
  - vm_compute. discriminate.
  - vm_compute. discriminate.
Defined.

(** C2 as stated fails below the minimum: with 0.05 supplied for the
    input and 0.5 for the target, both positive, the tracks are 0.15fr
    and 0.5fr, which is not the ratio 0.05 to 0.5. *)
Lemma proportional_counterexample :
  (0 < supplied InputColumn (MessageShape.normalized Examples.narrowInput))%Q
  /\ (0 < supplied TargetColumn
            (MessageShape.normalized Examples.narrowInput))%Q
  /\ widthOf InputColumn
       (columnsOf (Some (Examples.descriptor Examples.narrowInput)))
     = Css.Fr (JS.Fin 0.15)
  /\ widthOf TargetColumn
       (columnsOf (Some (Examples.descriptor Examples.narrowInput)))
     = Css.Fr (JS.Fin 0.5)
  /\ ~ proportional
        (supplied InputColumn (MessageShape.normalized Examples.narrowInput))
        (supplied TargetColumn (MessageShape.normalized Examples.narrowInput))
        (widthOf InputColumn
           (columnsOf (Some (Examples.descriptor Examples.narrowInput))))
        (widthOf TargetColumn
           (columnsOf (Some (Examples.descriptor Examples.narrowInput)))).
Proof.
  split; [reflexivity|]. split; [reflexivity|].
  split; [reflexivity|]. split; [reflexivity|].
  intros [qa [qb [Ha [Hb Hratio]]]].
  vm_compute in Ha, Hb. injection Ha as <-. injection Hb as <-.
  vm_compute in Hratio. discriminate.
Qed.

(** C9 as stated fails without a descriptor: the id and score tracks are
    then "NaNrem", not a number of rem within the bounds. *)
Lemma clamp_absent_counterexample :
  Columns.id (columnsOf Examples.absent) = Css.Rem JS.NaN
  /\ Columns.score (columnsOf Examples.absent) = Css.Rem JS.NaN
  /\ ~ clamped 2 10 (Columns.id (columnsOf Examples.absent))
  /\ ~ clamped 3 10 (Columns.score (columnsOf Examples.absent)).
Proof.
  split; [reflexivity|]. split; [reflexivity|].
  split; intros [q [H _]]; vm_compute in H; discriminate.
Qed.

(** In [Examples.grouped], going from the first sample to the third one
    scrolls down to position 4. *)
Lemma scroll_direction_witness :
  exists pos : nat,
    samplePosition Examples.grouped 2 = Some pos
    /\ scrolled
         (execState (scrollEffect Examples.grouped 2)
            (execState (scrollEffect Examples.grouped 0) (initialRefs true)))
       = (scrolled
            (execState (scrollEffect Examples.grouped 0) (initialRefs true))
          ++ [{| row := JS.ofNat pos; direction := "down" |}])%list.
Proof.
  apply (scroll_direction_follows_selection unit unit Examples.grouped 0 2
           (initialRefs true)).
  - reflexivity.
  - vm_compute. split; [discriminate|reflexivity].
  - vm_compute. split; [discriminate|reflexivity].
Defined.

(** After index -1 the scroll to the third sample of [Examples.grouped]
    is "up", although that sample is the last row. *)
Lemma scroll_after_no_selection_witness :
  prevSelectedIndexRef
    (execState (scrollEffect Examples.grouped (-1)) (initialRefs true))
  = JS.Undefined
  /\ exists pos : nat,
      samplePosition Examples.grouped 2 = Some pos
      /\ scrolled
           (execState (scrollEffect Examples.grouped 2)
              (execState (scrollEffect Examples.grouped (-1))
                 (initialRefs true)))
         = (scrolled
              (execState (scrollEffect Examples.grouped (-1))
                 (initialRefs true))
            ++ [{| row := JS.ofNat pos; direction := "up" |}])%list.
Proof.
  apply (scroll_after_no_selection_is_up unit unit Examples.grouped (-1) 2
           (initialRefs true)).
  - reflexivity.
  - left. reflexivity.
  - vm_compute. split; [discriminate|reflexivity].
Defined.

(** With the second sample of [Examples.grouped] selected, one row is
    scrolled to and drawn as selected. *)
Lemma scrolled_row_is_selected_row_witness :
  exists pos : nat,
    at_index (itemRowMapping Examples.grouped) 1 = JS.ofNat pos
    /\ forall q item,
        nth_error Examples.grouped q = Some item ->
        (isSelectedRow (renderRow Examples.absent 1 item) = true <-> q = pos).
Proof.
  apply (scrolled_row_is_selected_row unit unit unit Examples.grouped
           Examples.absent 1).
  - reflexivity.
  - vm_compute. split; [discriminate|reflexivity].
Defined.

(** The input column of [Examples.wide] is not narrower than the one of
    [Examples.narrowInput]. *)
Lemma text_track_monotone_witness :
  (frNumber (widthOf InputColumn
               (columnsOf (Some (Examples.descriptor Examples.narrowInput))))
   <= frNumber (widthOf InputColumn
                  (columnsOf (Some (Examples.descriptor Examples.wide)))))%Q.
Proof.
  apply (text_track_monotone unit unit unit
           (Examples.descriptor Examples.narrowInput)
           (Examples.descriptor Examples.wide) InputColumn).
  vm_compute. discriminate.
Defined.

Lemma banner_counts_bounded_witness :
  (errorCount Examples.troubled <= sampleCount Examples.troubled)%nat
  /\ (limitCount Examples.troubled <= sampleCount Examples.troubled)%nat
  /\ (sampleCount Examples.troubled <= List.length Examples.troubled)%nat
  /\ (warningMessage (fun a b => (a, b)) (fun _ => "50") Examples.troubled
      <> None ->
      (1 <= sampleCount Examples.troubled)%nat).
Proof.
  apply (banner_counts_bounded unit unit (nat * nat)
           (fun a b => (a, b)) (fun _ => "50") Examples.troubled).
  reflexivity.
Defined.

Lemma banner_and_footer_ignore_order_witness :
  warningRow (Markup := unit) (fun a b => (a, b)) (fun _ : nat * nat => "50")
             [Examples.sample 0 (Some "boom") None;
              Examples.separator 1 "Group 1"] false
  = warningRow (fun a b => (a, b)) (fun _ => "50")
               [Examples.separator 1 "Group 1";
                Examples.sample 0 (Some "boom") None] false
  /\ footerRow (Markup := unit)
               [Examples.sample 0 (Some "boom") None;
                Examples.separator 1 "Group 1"]
     = footerRow [Examples.separator 1 "Group 1";
                  Examples.sample 0 (Some "boom") None].
Proof.
  apply (banner_and_footer_ignore_order unit unit unit (nat * nat)
           (fun a b => (a, b)) (fun _ => "50")).
  apply perm_swap.
Defined.

Lemma scroll_target_witness :
  exists call : ScrollCall,
    scrolled (execState (scrollEffect Examples.grouped 1) (initialRefs true))
    = (scrolled (initialRefs true) ++ [call])%list
    /\ (row call = JS.Undefined
        \/ exists pos item,
            row call = JS.ofNat pos
            /\ nth_error Examples.grouped pos = Some item
            /\ type item = "sample").
Proof.
  apply (scroll_target_is_a_sample unit unit Examples.grouped 1
           (initialRefs true)).
  reflexivity.
Defined.

(** Two different sample entries numbered 5 (other index, other
    summary) get the same id, "sample-5". *)
Lemma row_ids_distinguish_witness :
  type {| number := 5; index := 4;
          data := DataSample (Examples.summary None None);
          type := "sample" |}
  = type {| number := 5; index := 7;
            data := DataSample (Examples.summary (Some "boom") None);
            type := "sample" |}
  /\ number {| number := 5; index := 4;
               data := DataSample (Examples.summary None None);
               type := "sample" |}
     = number {| number := 5; index := 7;
                 data := DataSample (Examples.summary (Some "boom") None);
                 type := "sample" |}.
Proof.
  apply (row_ids_distinguish unit unit unit (fun _ => []) (fun _ => "")
           Examples.absent 0
           {| number := 5; index := 4;
              data := DataSample (Examples.summary None None);
              type := "sample" |}
           {| number := 5; index := 7;
              data := DataSample (Examples.summary (Some "boom") None);
              type := "sample" |}
           "sample-5");
    reflexivity.
Defined.

Lemma click_is_enter_witness :
  execState
    (row_onclick
       (SampleRow (Markup := unit) (fun _ => []) (fun _ => "") 2 1
                  (Examples.summary None None) Examples.absent 88 true)) []
  = [CallShowSample 1]
  /\ (row_selected
        (SampleRow (Markup := unit) (fun _ => []) (fun _ => "") 2 1
                   (Examples.summary None None) Examples.absent 88 true)
      = true ->
      execState (onkeydown 1 "Enter") []
      = (execState
           (row_onclick
              (SampleRow (Markup := unit) (fun _ => []) (fun _ => "") 2 1
                         (Examples.summary None None) Examples.absent 88 true))
           []
         ++ [PreventDefault; StopPropagation])%list).
Proof.
  apply (click_is_enter_on_selected_row unit unit unit
           (fun _ => []) (fun _ => "") Examples.absent 1
           (Examples.sample 1 None None)).
  reflexivity.
Defined.
